(** * Data Factory linked service (Azure SQL Database): resource handlers

    A shallow embedding of
    [azurerm/internal/services/datafactory/data_factory_linked_service_azure_sql_database_resource.go]
    and the properties of its three handlers:
    [resourceDataFactoryLinkedServiceAzureSQLDatabaseCreateUpdate],
    [resourceDataFactoryLinkedServiceAzureSQLDatabaseRead] and
    [resourceDataFactoryLinkedServiceAzureSQLDatabaseDelete].

    The handlers are written in a small state-and-exit monad over
    - the [ResourceData] the plugin SDK hands to the handler,
    - the remote service behind the linked-service client, and
    - the log of the remote calls made so far.

    The remote client, the identifier parser, the not-found test, the
    import-as-exists error constructor and the [%q] verb are collaborators
    whose code is outside the file: they are parameters of the handlers. *)

From Stdlib Require Import ZArith String Ascii List.
From stdpp Require Import base option list gmap strings fin_maps.

Local Open Scope string_scope.
Local Open Scope list_scope.
Local Open Scope Z_scope.

(** ** Go values *)

(** A Go [error] is identified with its [Error()] text; [nil] is [None]. *)
Definition error := string.

(** The [%+v] verb applied to an [error] operand. *)
Definition fmt_v (err : option error) : string :=
  match err with
  | Some e => e
  | None => "<nil>"
  end.

(** [s] occurs inside [t]. *)
Definition contains (s t : string) : Prop :=
  ∃ pre post : string, t = pre +:+ s +:+ post.

(** ** The attribute set: [schema.ResourceData]

    One field per key of the resource's [Schema], plus the identifier and the
    new-resource mark.  [d.Get(k)] is the projection: an attribute that is not
    set reads as the zero value of its type. *)

Record KeyVaultPassword := {
  linked_service_name : string;
  secret_name : string }.

Record ResourceData := {
  Id : string;
  IsNewResource : bool;
  name : string;
  data_factory_name : string;
  resource_group_name : string;
  connection_string : string;
  description : string;
  key_vault_password : list KeyVaultPassword;
  use_managed_identity : bool;
  service_principal_id : string;
  service_principal_key : string;
  tenant_id : string;
  integration_runtime_name : string;
  parameters : gmap string string;
  annotations : list string;
  additional_properties : gmap string string }.

(** Line 72: [MaxItems] of [key_vault_password]. *)
Definition key_vault_password_MaxItems : nat := 1.

(** [d.GetOk(k)]: the value, and whether it differs from the zero value. *)
Definition GetOk_string (v : string) : string * bool :=
  (v, if decide (v = "") then false else true).

Definition GetOk_list {A} (v : list A) : list A * bool :=
  (v, match v with [] => false | _ :: _ => true end).

Definition GetOk_map (v : gmap string string) : gmap string string * bool :=
  (v, if decide (v = ∅) then false else true).

(** [d.SetId] and [d.Set(k, v)], one setter per key the handlers write. *)
Definition SetId (v : string) (d : ResourceData) : ResourceData :=
  {| Id := v; IsNewResource := IsNewResource d; name := name d;
     data_factory_name := data_factory_name d;
     resource_group_name := resource_group_name d;
     connection_string := connection_string d; description := description d;
     key_vault_password := key_vault_password d;
     use_managed_identity := use_managed_identity d;
     service_principal_id := service_principal_id d;
     service_principal_key := service_principal_key d;
     tenant_id := tenant_id d;
     integration_runtime_name := integration_runtime_name d;
     parameters := parameters d; annotations := annotations d;
     additional_properties := additional_properties d |}.

Definition Set_name (v : string) (d : ResourceData) : ResourceData :=
  {| Id := Id d; IsNewResource := IsNewResource d; name := v;
     data_factory_name := data_factory_name d;
     resource_group_name := resource_group_name d;
     connection_string := connection_string d; description := description d;
     key_vault_password := key_vault_password d;
     use_managed_identity := use_managed_identity d;
     service_principal_id := service_principal_id d;
     service_principal_key := service_principal_key d;
     tenant_id := tenant_id d;
     integration_runtime_name := integration_runtime_name d;
     parameters := parameters d; annotations := annotations d;
     additional_properties := additional_properties d |}.

Definition Set_data_factory_name (v : string) (d : ResourceData) : ResourceData :=
  {| Id := Id d; IsNewResource := IsNewResource d; name := name d;
     data_factory_name := v;
     resource_group_name := resource_group_name d;
     connection_string := connection_string d; description := description d;
     key_vault_password := key_vault_password d;
     use_managed_identity := use_managed_identity d;
     service_principal_id := service_principal_id d;
     service_principal_key := service_principal_key d;
     tenant_id := tenant_id d;
     integration_runtime_name := integration_runtime_name d;
     parameters := parameters d; annotations := annotations d;
     additional_properties := additional_properties d |}.

Definition Set_resource_group_name (v : string) (d : ResourceData) : ResourceData :=
  {| Id := Id d; IsNewResource := IsNewResource d; name := name d;
     data_factory_name := data_factory_name d;
     resource_group_name := v;
     connection_string := connection_string d; description := description d;
     key_vault_password := key_vault_password d;
     use_managed_identity := use_managed_identity d;
     service_principal_id := service_principal_id d;
     service_principal_key := service_principal_key d;
     tenant_id := tenant_id d;
     integration_runtime_name := integration_runtime_name d;
     parameters := parameters d; annotations := annotations d;
     additional_properties := additional_properties d |}.

Definition Set_description (v : string) (d : ResourceData) : ResourceData :=
  {| Id := Id d; IsNewResource := IsNewResource d; name := name d;
     data_factory_name := data_factory_name d;
     resource_group_name := resource_group_name d;
     connection_string := connection_string d; description := v;
     key_vault_password := key_vault_password d;
     use_managed_identity := use_managed_identity d;
     service_principal_id := service_principal_id d;
     service_principal_key := service_principal_key d;
     tenant_id := tenant_id d;
     integration_runtime_name := integration_runtime_name d;
     parameters := parameters d; annotations := annotations d;
     additional_properties := additional_properties d |}.

Definition Set_key_vault_password (v : list KeyVaultPassword) (d : ResourceData)
  : ResourceData :=
  {| Id := Id d; IsNewResource := IsNewResource d; name := name d;
     data_factory_name := data_factory_name d;
     resource_group_name := resource_group_name d;
     connection_string := connection_string d; description := description d;
     key_vault_password := v;
     use_managed_identity := use_managed_identity d;
     service_principal_id := service_principal_id d;
     service_principal_key := service_principal_key d;
     tenant_id := tenant_id d;
     integration_runtime_name := integration_runtime_name d;
     parameters := parameters d; annotations := annotations d;
     additional_properties := additional_properties d |}.

Definition Set_use_managed_identity (v : bool) (d : ResourceData) : ResourceData :=
  {| Id := Id d; IsNewResource := IsNewResource d; name := name d;
     data_factory_name := data_factory_name d;
     resource_group_name := resource_group_name d;
     connection_string := connection_string d; description := description d;
     key_vault_password := key_vault_password d;
     use_managed_identity := v;
     service_principal_id := service_principal_id d;
     service_principal_key := service_principal_key d;
     tenant_id := tenant_id d;
     integration_runtime_name := integration_runtime_name d;
     parameters := parameters d; annotations := annotations d;
     additional_properties := additional_properties d |}.

Definition Set_service_principal_id (v : string) (d : ResourceData) : ResourceData :=
  {| Id := Id d; IsNewResource := IsNewResource d; name := name d;
     data_factory_name := data_factory_name d;
     resource_group_name := resource_group_name d;
     connection_string := connection_string d; description := description d;
     key_vault_password := key_vault_password d;
     use_managed_identity := use_managed_identity d;
     service_principal_id := v;
     service_principal_key := service_principal_key d;
     tenant_id := tenant_id d;
     integration_runtime_name := integration_runtime_name d;
     parameters := parameters d; annotations := annotations d;
     additional_properties := additional_properties d |}.

Definition Set_tenant_id (v : string) (d : ResourceData) : ResourceData :=
  {| Id := Id d; IsNewResource := IsNewResource d; name := name d;
     data_factory_name := data_factory_name d;
     resource_group_name := resource_group_name d;
     connection_string := connection_string d; description := description d;
     key_vault_password := key_vault_password d;
     use_managed_identity := use_managed_identity d;
     service_principal_id := service_principal_id d;
     service_principal_key := service_principal_key d;
     tenant_id := v;
     integration_runtime_name := integration_runtime_name d;
     parameters := parameters d; annotations := annotations d;
     additional_properties := additional_properties d |}.

Definition Set_integration_runtime_name (v : string) (d : ResourceData)
  : ResourceData :=
  {| Id := Id d; IsNewResource := IsNewResource d; name := name d;
     data_factory_name := data_factory_name d;
     resource_group_name := resource_group_name d;
     connection_string := connection_string d; description := description d;
     key_vault_password := key_vault_password d;
     use_managed_identity := use_managed_identity d;
     service_principal_id := service_principal_id d;
     service_principal_key := service_principal_key d;
     tenant_id := tenant_id d;
     integration_runtime_name := v;
     parameters := parameters d; annotations := annotations d;
     additional_properties := additional_properties d |}.

Definition Set_parameters (v : gmap string string) (d : ResourceData)
  : ResourceData :=
  {| Id := Id d; IsNewResource := IsNewResource d; name := name d;
     data_factory_name := data_factory_name d;
     resource_group_name := resource_group_name d;
     connection_string := connection_string d; description := description d;
     key_vault_password := key_vault_password d;
     use_managed_identity := use_managed_identity d;
     service_principal_id := service_principal_id d;
     service_principal_key := service_principal_key d;
     tenant_id := tenant_id d;
     integration_runtime_name := integration_runtime_name d;
     parameters := v; annotations := annotations d;
     additional_properties := additional_properties d |}.

Definition Set_annotations (v : list string) (d : ResourceData) : ResourceData :=
  {| Id := Id d; IsNewResource := IsNewResource d; name := name d;
     data_factory_name := data_factory_name d;
     resource_group_name := resource_group_name d;
     connection_string := connection_string d; description := description d;
     key_vault_password := key_vault_password d;
     use_managed_identity := use_managed_identity d;
     service_principal_id := service_principal_id d;
     service_principal_key := service_principal_key d;
     tenant_id := tenant_id d;
     integration_runtime_name := integration_runtime_name d;
     parameters := parameters d; annotations := v;
     additional_properties := additional_properties d |}.

Definition Set_additional_properties (v : gmap string string) (d : ResourceData)
  : ResourceData :=
  {| Id := Id d; IsNewResource := IsNewResource d; name := name d;
     data_factory_name := data_factory_name d;
     resource_group_name := resource_group_name d;
     connection_string := connection_string d; description := description d;
     key_vault_password := key_vault_password d;
     use_managed_identity := use_managed_identity d;
     service_principal_id := service_principal_id d;
     service_principal_key := service_principal_key d;
     tenant_id := tenant_id d;
     integration_runtime_name := integration_runtime_name d;
     parameters := parameters d; annotations := annotations d;
     additional_properties := v |}.

(** [d.Set(k, p)] with a [*string]: a nil pointer stores the zero value. *)
Definition deref (p : option string) : string := default "" p.

(** ** The SDK's types (package [datafactory], API version 2018-06-01)

    Pointers and interfaces are options ([None] is [nil]); only the fields the
    handlers touch are kept.  The values of [map[string]interface{}] and
    [[]interface{}] payloads are strings, the element type the schema gives
    them. *)

Inductive TypeBasicSecretBase :=
  | TypeSecretBase
  | TypeSecureString
  | TypeAzureKeyVaultSecret.

Record SecureString := {
  SecureString_Value : option string;
  SecureString_Type : TypeBasicSecretBase }.

Record LinkedServiceReference := {
  LinkedServiceReference_Type : option string;
  LinkedServiceReference_ReferenceName : option string }.

Record AzureKeyVaultSecretReference := {
  Store : option LinkedServiceReference;
  SecretName : string }.

Inductive BasicSecretBase :=
  | SecretBase_SecureString (s : SecureString)
  | SecretBase_AzureKeyVaultSecretReference (r : AzureKeyVaultSecretReference)
  | SecretBase_SecretBase.

Record IntegrationRuntimeReference := {
  IntegrationRuntimeReference_Type : option string;
  IntegrationRuntimeReference_ReferenceName : option string }.

Inductive ParameterType := ParameterTypeString | ParameterTypeObject.

Record ParameterSpecification := {
  ParameterSpecification_Type : ParameterType;
  DefaultValue : string }.

Record AzureSQLDatabaseLinkedServiceTypeProperties := {
  ConnectionString : option SecureString;
  Password : option BasicSecretBase;
  ServicePrincipalID : option string;
  ServicePrincipalKey : option BasicSecretBase;
  Tenant : option string }.

(** The type properties are an embedded pointer: [sql.Tenant] and the like are
    promoted fields, and reading one through a nil pointer panics. *)
Record AzureSQLDatabaseLinkedService := {
  TypeProperties : option AzureSQLDatabaseLinkedServiceTypeProperties;
  AdditionalProperties : gmap string string;
  ConnectVia : option IntegrationRuntimeReference;
  Description : option string;
  Parameters : gmap string (option ParameterSpecification);
  Annotations : option (list string) }.

(** [datafactory.TypeAzureSQLDatabase]. *)
Definition TypeAzureSQLDatabase : string := "AzureSqlDatabase".

(** The [BasicLinkedService] interface: the Azure SQL Database variant, or one
    of the other kinds, of which only the discriminator matters here. *)
Inductive BasicLinkedService :=
  | AzureSQLDatabase (sql : AzureSQLDatabaseLinkedService)
  | OtherLinkedService (kind : string).

Definition AsAzureSQLDatabaseLinkedService (p : BasicLinkedService)
  : option AzureSQLDatabaseLinkedService * bool :=
  match p with
  | AzureSQLDatabase sql => (Some sql, true)
  | OtherLinkedService _ => (None, false)
  end.

Record http_Response := { StatusCode : Z }.

Record autorest_Response := { Response : option http_Response }.

Record LinkedServiceResource := {
  Resource_Response : autorest_Response;
  Properties : option BasicLinkedService;
  ID : option string;
  Name : option string;
  Resource_Type : option string }.

(** [parse.LinkedServiceId]. *)
Record LinkedServiceId := {
  ResourceGroup : string;
  FactoryName : string;
  LinkedServiceName : string }.

Definition AsAzureKeyVaultSecretReference (s : BasicSecretBase)
  : option AzureKeyVaultSecretReference * bool :=
  match s with
  | SecretBase_AzureKeyVaultSecretReference r => (Some r, true)
  | _ => (None, false)
  end.

(** ** Field-mapping helpers of the package (file [data_factory.go]) *)

(** Modelled from the spec: [expandAzureKeyVaultPassword] is not part of the
    file; it is the "config → API request" mapping of the single
    [key_vault_password] block to a key-vault secret reference. *)
Definition expandAzureKeyVaultPassword (input : list KeyVaultPassword)
  : option AzureKeyVaultSecretReference :=
  match input with
  | [] => None
  | config :: _ =>
      Some {| SecretName := secret_name config;
              Store := Some {|
                LinkedServiceReference_Type := Some "LinkedServiceReference";
                LinkedServiceReference_ReferenceName :=
                  Some (linked_service_name config) |} |}
  end.

(** Modelled from the spec: [flattenAzureKeyVaultPassword] is not part of the
    file; it is the "API response → config" mapping of a key-vault secret
    reference back to a one-block list. *)
Definition flattenAzureKeyVaultPassword (secretReference : AzureKeyVaultSecretReference)
  : list KeyVaultPassword :=
  [ {| linked_service_name :=
         match Store secretReference with
         | Some store => deref (LinkedServiceReference_ReferenceName store)
         | None => ""
         end;
       secret_name := SecretName secretReference |} ].

(** Modelled from the spec: [expandDataFactoryParameters] is not part of the
    file; every configured parameter becomes a string-typed parameter
    specification whose default value is the configured string. *)
Definition expandDataFactoryParameters (input : gmap string string)
  : gmap string (option ParameterSpecification) :=
  (λ v, Some {| ParameterSpecification_Type := ParameterTypeString;
                DefaultValue := v |}) <$> input.

(** Modelled from the spec: [flattenDataFactoryParameters] is not part of the
    file; every non-nil parameter specification maps back to its default
    value. *)
Definition flattenDataFactoryParameters
  (input : gmap string (option ParameterSpecification)) : gmap string string :=
  omap (λ v : option ParameterSpecification, DefaultValue <$> v) input.

(** Modelled from the spec: [flattenDataFactoryAnnotations] is not part of the
    file; a nil pointer flattens to the empty list, a list to itself. *)
Definition flattenDataFactoryAnnotations (input : option (list string))
  : list string :=
  match input with
  | None => []
  | Some l => l
  end.

(** Modelled from the spec: [expandDataFactoryLinkedServiceIntegrationRuntime]
    is not part of the file; the runtime name becomes the reference name of an
    integration-runtime reference. *)
Definition expandDataFactoryLinkedServiceIntegrationRuntime
  (integrationRuntimeName : string) : option IntegrationRuntimeReference :=
  Some {| IntegrationRuntimeReference_ReferenceName := Some integrationRuntimeName;
          IntegrationRuntimeReference_Type := Some "IntegrationRuntimeReference" |}.

(** ** The remote client and the call log *)

(** The places of the file at which a remote call is made. *)
Inductive Site :=
  | AtCheckExisting  (* line 165: Get, new resources only *)
  | AtCreateOrUpdate (* line 231 *)
  | AtRetrieve       (* line 235: Get after CreateOrUpdate *)
  | AtRead           (* line 259: Get *)
  | AtDelete.        (* line 331 *)

(** The sites whose error branch tests [utils.ResponseWasNotFound]
    (lines 167, 261 and 333). *)
Definition tests_not_found (s : Site) : bool :=
  match s with
  | AtCheckExisting | AtRead | AtDelete => true
  | AtCreateOrUpdate | AtRetrieve => false
  end.

Inductive Call :=
  | Get_ (resourceGroupName factoryName linkedServiceName ifNoneMatch : string)
  | CreateOrUpdate_ (resourceGroupName factoryName linkedServiceName : string)
      (linkedService : LinkedServiceResource) (ifMatch : string)
  | Delete_ (resourceGroupName factoryName linkedServiceName : string).

(** The (resource group, data factory, linked service) triple a call
    addresses. *)
Definition addressed (c : Call) : string * string * string :=
  match c with
  | Get_ rg df n _ => (rg, df, n)
  | CreateOrUpdate_ rg df n _ _ => (rg, df, n)
  | Delete_ rg df n => (rg, df, n)
  end.

(** What a call gave back: the Go result pair. *)
Inductive Outcome :=
  | Resource (result : LinkedServiceResource) (err : option error)
  | Plain (result : autorest_Response) (err : option error).

Record Event := {
  site : Site;
  call : Call;
  outcome : Outcome }.

Definition failure (e : Event) : option error :=
  match outcome e with
  | Resource _ err | Plain _ err => err
  end.

Definition response (e : Event) : autorest_Response :=
  match outcome e with
  | Resource result _ => Resource_Response result
  | Plain result _ => result
  end.

(** The identifier carried by the resource a call gave back. *)
Definition returned_ID (e : Event) : option string :=
  match outcome e with
  | Resource result _ => ID result
  | Plain _ _ => None
  end.

(** [datafactory.LinkedServicesClient]: each method takes the remote service
    from one state to the next and yields the Go result pair. *)
Class LinkedServicesClient (W : Type) := {
  client_Get : string → string → string → string → W →
               (LinkedServiceResource * option error) * W;
  client_CreateOrUpdate : string → string → string → LinkedServiceResource →
               string → W → (LinkedServiceResource * option error) * W;
  client_Delete : string → string → string → W →
               (autorest_Response * option error) * W }.

(** The operations of a [schema.Resource]. *)
Inductive Operation := OpCreate | OpRead | OpUpdate | OpDelete.

(** ** The handler monad *)

Record State (W : Type) := MkState {
  data : ResourceData;
  remote : W;
  calls : list Event }.
Arguments MkState {W}.
Arguments data {W}.
Arguments remote {W}.
Arguments calls {W}.

(** How a handler leaves other than by [return nil]. *)
Inductive Exit :=
  | Return (err : error)
  | Panic.

Definition M (W A : Type) : Type := State W → (A + Exit) * State W.

Definition ret {W A} (a : A) : M W A := λ st, (inl a, st).

Definition bind {W A B} (m : M W A) (k : A → M W B) : M W B :=
  λ st, match m st with
        | (inl a, st') => k a st'
        | (inr e, st') => (inr e, st')
        end.

Definition throw {W A} (err : error) : M W A := λ st, (inr (Return err), st).

Definition panic {W A} : M W A := λ st, (inr Panic, st).

Definition get_data {W} : M W ResourceData := λ st, (inl (data st), st).

Definition update {W} (f : ResourceData → ResourceData) : M W unit :=
  λ st, (inl tt, MkState (f (data st)) (remote st) (calls st)).

Declare Scope handler_scope.
Delimit Scope handler_scope with handler.
Notation "x <- m ;; k" := (bind m (λ x, k))
  (at level 100, m at next level, right associativity) : handler_scope.
Notation "m ;; k" := (bind m (λ _, k))
  (at level 100, right associativity) : handler_scope.

(** ** The handlers *)

Section Handlers.

Context {W : Type} {Client : LinkedServicesClient W}.

(** The [%q] verb of package [fmt] on a string operand. *)
Variable quote : string → string.
(** [utils.ResponseWasNotFound]. *)
Variable ResponseWasNotFound : autorest_Response → bool.
(** [parse.LinkedServiceID]: the parsed identifier, or the parse error. *)
Variable LinkedServiceID : string → LinkedServiceId + error.
(** [tf.ImportAsExistsError], applied to the resource type and the ID. *)
Variable ImportAsExistsError : string → string → error.

Local Open Scope handler_scope.

(** A remote call: run the client on the remote service and log the call
    with its outcome. *)
Definition call_Get (s : Site) (rg df n ifNoneMatch : string)
  : M W (LinkedServiceResource * option error) :=
  λ st, let '(r, w) := client_Get rg df n ifNoneMatch (remote st) in
        (inl r, MkState (data st) w
                  (calls st ++ [ {| site := s; call := Get_ rg df n ifNoneMatch;
                                    outcome := Resource r.1 r.2 |} ])).

Definition call_CreateOrUpdate (s : Site) (rg df n : string)
  (linkedService : LinkedServiceResource) (ifMatch : string)
  : M W (LinkedServiceResource * option error) :=
  λ st, let '(r, w) := client_CreateOrUpdate rg df n linkedService ifMatch
                         (remote st) in
        (inl r, MkState (data st) w
                  (calls st ++ [ {| site := s;
                                    call := CreateOrUpdate_ rg df n linkedService ifMatch;
                                    outcome := Resource r.1 r.2 |} ])).

Definition call_Delete (s : Site) (rg df n : string)
  : M W (autorest_Response * option error) :=
  λ st, let '(r, w) := client_Delete rg df n (remote st) in
        (inl r, MkState (data st) w
                  (calls st ++ [ {| site := s; call := Delete_ rg df n;
                                    outcome := Plain r.1 r.2 |} ])).

(** [fmt.Errorf(what ++ "%q (Data Factory %q / Resource Group %q): " ++ ...)]:
    the part all the file's error formats share, then the rendered rest. *)
Definition Errorf (what : string) (n df rg : string) (rest : string) : error :=
  what +:+ quote n +:+ " (Data Factory " +:+ quote df
       +:+ " / Resource Group " +:+ quote rg +:+ "): " +:+ rest.

(** Lines 177-229: the request built from the configuration. *)
Definition linkedService (d : ResourceData) : LinkedServiceResource :=
  let ConnectionString' :=
    let '(v, ok) := GetOk_string (connection_string d) in
    if ok then Some {| SecureString_Value := Some v;
                       SecureString_Type := TypeSecureString |}
    else None in
  let '(ServicePrincipalID', Tenant', ServicePrincipalKey') :=
    if use_managed_identity d then
      (None, Some (tenant_id d), None)
    else
      let secureString := {| SecureString_Value := Some (service_principal_key d);
                             SecureString_Type := TypeSecureString |} in
      (Some (service_principal_id d), Some (tenant_id d),
       Some (SecretBase_SecureString secureString)) in
  let Password' :=
    let '(password, ok) := GetOk_list (key_vault_password d) in
    if ok then SecretBase_AzureKeyVaultSecretReference
                 <$> expandAzureKeyVaultPassword password
    else None in
  let sqlDatabaseProperties :=
    {| ConnectionString := ConnectionString';
       Password := Password';
       ServicePrincipalID := ServicePrincipalID';
       ServicePrincipalKey := ServicePrincipalKey';
       Tenant := Tenant' |} in
  let azureSQLDatabaseLinkedService :=
    {| Description := Some (description d);
       TypeProperties := Some sqlDatabaseProperties;
       Parameters :=
         (let '(v, ok) := GetOk_map (parameters d) in
          if ok then expandDataFactoryParameters v else ∅);
       ConnectVia :=
         (let '(v, ok) := GetOk_string (integration_runtime_name d) in
          if ok then expandDataFactoryLinkedServiceIntegrationRuntime v else None);
       AdditionalProperties :=
         (let '(v, ok) := GetOk_map (additional_properties d) in
          if ok then v else ∅);
       Annotations :=
         (let '(v, ok) := GetOk_list (annotations d) in
          if ok then Some v else None) |} in
  {| Resource_Response := {| Response := None |};
     Properties := Some (AzureSQLDatabase azureSQLDatabaseLinkedService);
     ID := None; Name := None; Resource_Type := None |}.

(** Lines 269-318: the attributes written from a retrieved resource.  The
    values handed to [d.Set] have the types the schema declares for their
    keys, so [d.Set] stores them; the error returns of lines 297, 304 and 309
    have no run. *)
Definition flatten (id : LinkedServiceId) (resp : LinkedServiceResource)
  : M W unit :=
  update (Set_name (deref (Name resp)));;
  update (Set_resource_group_name (ResourceGroup id));;
  update (Set_data_factory_name (FactoryName id));;
  match Properties resp with
  | None => panic (* method call on a nil interface *)
  | Some properties =>
    let '(sql, ok) := AsAzureSQLDatabaseLinkedService properties in
    if negb ok then
      match Resource_Type resp with
      | None => panic (* [*resp.Type] *)
      | Some type =>
          throw (Errorf "Error classifiying Data Factory Linked Service AzureSQLDatabase "
                   (LinkedServiceName id) (FactoryName id) (ResourceGroup id)
                   ("Expected: " +:+ quote TypeAzureSQLDatabase
                      +:+ " Received: " +:+ quote type))
      end
    else
      match sql with
      | None => panic (* [sql.AdditionalProperties] past the nil test *)
      | Some sql =>
        match TypeProperties sql with
        | None => panic (* promoted field of a nil embedded pointer *)
        | Some typeProperties =>
          match Tenant typeProperties with
          | Some tenant => update (Set_tenant_id tenant)
          | None => ret tt
          end;;
          match ServicePrincipalID typeProperties with
          | Some servicePrincipalID =>
              update (Set_service_principal_id servicePrincipalID);;
              update (Set_use_managed_identity false)
          | None => update (Set_use_managed_identity true)
          end;;
          update (Set_additional_properties (AdditionalProperties sql));;
          update (Set_description (deref (Description sql)));;
          match Password typeProperties with
          | Some password =>
              match AsAzureKeyVaultSecretReference password with
              | (Some keyVaultPassword, true) =>
                  update (Set_key_vault_password
                            (flattenAzureKeyVaultPassword keyVaultPassword))
              | _ => ret tt
              end
          | None => ret tt
          end;;
          update (Set_annotations (flattenDataFactoryAnnotations (Annotations sql)));;
          update (Set_parameters (flattenDataFactoryParameters (Parameters sql)));;
          match ConnectVia sql with
          | Some connectVia =>
              match IntegrationRuntimeReference_ReferenceName connectVia with
              | Some referenceName =>
                  update (Set_integration_runtime_name referenceName)
              | None => ret tt
              end
          | None => ret tt
          end
        end
      end
  end.

Definition resourceDataFactoryLinkedServiceAzureSQLDatabaseRead : M W unit :=
  d <- get_data;;
  match LinkedServiceID (Id d) with
  | inr err => throw err
  | inl id =>
    r <- call_Get AtRead (ResourceGroup id) (FactoryName id)
           (LinkedServiceName id) "";;
    let '(resp, err) := r in
    match err with
    | Some err =>
        if ResponseWasNotFound (Resource_Response resp) then
          update (SetId "")
        else
          throw (Errorf "Error retrieving Data Factory Linked Service AzureSQLDatabase "
                   (LinkedServiceName id) (FactoryName id) (ResourceGroup id)
                   (fmt_v (Some err)))
    | None => flatten id resp
    end
  end.

(** Lines 155-244 of
    [resourceDataFactoryLinkedServiceAzureSQLDatabaseCreateUpdate]: all of it
    but the closing call of [Read]. *)
Definition CreateUpdate_before_Read : M W unit :=
  d <- get_data;;
  let n := name d in
  let dataFactoryName := data_factory_name d in
  let resourceGroup := resource_group_name d in
  (if IsNewResource d then
     r <- call_Get AtCheckExisting resourceGroup dataFactoryName n "";;
     let '(existing, err) := r in
     match err with
     | Some err =>
         if negb (ResponseWasNotFound (Resource_Response existing)) then
           throw (Errorf "checking for presence of existing Data Factory Linked Service AzureSQLDatabase "
                    n dataFactoryName resourceGroup (fmt_v (Some err)))
         else ret tt
     | None => ret tt
     end;;
     match ID existing with
     | Some existingID =>
         if decide (existingID ≠ "") then
           throw (ImportAsExistsError
                    "azurerm_data_factory_linked_service_azure_sql_database"
                    existingID)
         else ret tt
     | None => ret tt
     end
   else ret tt);;
  r <- call_CreateOrUpdate AtCreateOrUpdate resourceGroup dataFactoryName n
         (linkedService d) "";;
  let '(_, err) := r in
  match err with
  | Some err =>
      throw (Errorf "Error creating/updating Data Factory Linked Service AzureSQLDatabase "
               n dataFactoryName resourceGroup (fmt_v (Some err)))
  | None =>
    r <- call_Get AtRetrieve resourceGroup dataFactoryName n "";;
    let '(resp, err) := r in
    match err with
    | Some err =>
        throw (Errorf "Error retrieving Data Factory Linked Service AzureSQLDatabase "
                 n dataFactoryName resourceGroup (fmt_v (Some err)))
    | None =>
      match ID resp with
      | None =>
          throw (Errorf "Cannot read Data Factory Linked Service AzureSQLDatabase "
                   n dataFactoryName resourceGroup (fmt_v err))
      | Some respID => update (SetId respID)
      end
    end
  end.

(** The handler: lines 155-244, then line 246. *)
Definition resourceDataFactoryLinkedServiceAzureSQLDatabaseCreateUpdate : M W unit :=
  CreateUpdate_before_Read;;
  resourceDataFactoryLinkedServiceAzureSQLDatabaseRead.

Definition resourceDataFactoryLinkedServiceAzureSQLDatabaseDelete : M W unit :=
  d <- get_data;;
  match LinkedServiceID (Id d) with
  | inr err => throw err
  | inl id =>
    r <- call_Delete AtDelete (ResourceGroup id) (FactoryName id)
           (LinkedServiceName id);;
    let '(response, err) := r in
    match err with
    | Some err =>
        if negb (ResponseWasNotFound response) then
          throw (Errorf "deleting Data Factory Linked Service AzureSQLDatabase "
                   (LinkedServiceName id) (FactoryName id) (ResourceGroup id)
                   (fmt_v (Some err)))
        else ret tt
    | None => ret tt
    end
  end.

(** Lines 21-24: the handler the resource registers for each operation. *)
Definition resourceDataFactoryLinkedServiceAzureSQLDatabase (op : Operation)
  : M W unit :=
  match op with
  | OpCreate => resourceDataFactoryLinkedServiceAzureSQLDatabaseCreateUpdate
  | OpRead => resourceDataFactoryLinkedServiceAzureSQLDatabaseRead
  | OpUpdate => resourceDataFactoryLinkedServiceAzureSQLDatabaseCreateUpdate
  | OpDelete => resourceDataFactoryLinkedServiceAzureSQLDatabaseDelete
  end.

End Handlers.

(** ** A scripted remote service and concrete collaborators

    Instances of the handlers' parameters on which the handlers can be run:
    a client that answers the calls it receives from a list of canned replies,
    the HTTP-404 test, a parser of identifiers of the form
    [/subscriptions/S/resourceGroups/RG/providers/Microsoft.DataFactory/factories/F/linkedservices/N],
    and the plain double-quoting of a string. *)

Module Scripted.

Definition Reply : Type := LinkedServiceResource * option error.

Definition status (code : Z) : autorest_Response :=
  {| Response := Some {| StatusCode := code |} |}.

Definition no_resource (resp : autorest_Response) : LinkedServiceResource :=
  {| Resource_Response := resp; Properties := None; ID := None; Name := None;
     Resource_Type := None |}.

Definition unreachable : Reply :=
  (no_resource {| Response := None |}, Some "connection refused").

Definition next (script : list Reply) : Reply * list Reply :=
  match script with
  | r :: script' => (r, script')
  | [] => (unreachable, [])
  end.

#[global] Instance client : LinkedServicesClient (list Reply) := {|
  client_Get := λ _ _ _ _ script, next script;
  client_CreateOrUpdate := λ _ _ _ _ _ script, next script;
  client_Delete := λ _ _ _ script,
    let '(r, script') := next script in
    ((Resource_Response r.1, r.2), script') |}.

Definition ResponseWasNotFound (resp : autorest_Response) : bool :=
  match Response resp with
  | Some r => bool_decide (StatusCode r = 404)
  | None => false
  end.

Definition quote (s : string) : string :=
  String "034" (s +:+ String "034" "").

Definition ImportAsExistsError (resourceName id : string) : error :=
  "A resource with the ID " +:+ quote id +:+ " already exists - " +:+
  "to be managed via Terraform this resource needs to be imported into the State. " +:+
  "Please see the resource documentation for " +:+ quote resourceName +:+
  " for more information.".

Fixpoint segments (s : string) : list string :=
  match s with
  | EmptyString => [""]
  | String c s' =>
      if Ascii.eqb c "/" then "" :: segments s'
      else match segments s' with
           | [] => [String c ""]
           | x :: xs => String c x :: xs
           end
  end.

Definition LinkedServiceID (input : string) : LinkedServiceId + error :=
  match segments input with
  | [e; k1; _; k2; rg; k3; p; k4; f; k5; n] =>
      if bool_decide (e = "" ∧ k1 = "subscriptions" ∧ k2 = "resourceGroups"
                      ∧ k3 = "providers" ∧ p = "Microsoft.DataFactory"
                      ∧ k4 = "factories" ∧ k5 = "linkedservices")
      then inl {| ResourceGroup := rg; FactoryName := f; LinkedServiceName := n |}
      else inr ("parsing " +:+ quote input)
  | _ => inr ("parsing " +:+ quote input)
  end.

(** A configuration: service-principal authentication, one key-vault
    password block, one parameter, two annotations. *)
Definition config : ResourceData :=
  {| Id := ""; IsNewResource := true;
     name := "ls"; data_factory_name := "df"; resource_group_name := "rg";
     connection_string := "Server=tcp:x.database.windows.net;Database=db";
     description := "linked";
     key_vault_password :=
       [ {| linked_service_name := "kv"; secret_name := "pw" |} ];
     use_managed_identity := false;
     service_principal_id := "00000000-0000-0000-0000-000000000001";
     service_principal_key := "key";
     tenant_id := "tenant";
     integration_runtime_name := "ir";
     parameters := {[ "p" := "1" ]};
     annotations := ["a"; "b"];
     additional_properties := ∅ |}.

Definition config_ID : string :=
  "/subscriptions/s/resourceGroups/rg/providers/Microsoft.DataFactory/factories/df/linkedservices/ls".

Definition config_id : LinkedServiceId :=
  {| ResourceGroup := "rg"; FactoryName := "df"; LinkedServiceName := "ls" |}.

(** The stored state of that resource once created. *)
Definition stored : ResourceData :=
  SetId config_ID
    {| Id := ""; IsNewResource := false;
       name := name config; data_factory_name := data_factory_name config;
       resource_group_name := resource_group_name config;
       connection_string := connection_string config;
       description := description config;
       key_vault_password := key_vault_password config;
       use_managed_identity := use_managed_identity config;
       service_principal_id := service_principal_id config;
       service_principal_key := service_principal_key config;
       tenant_id := tenant_id config;
       integration_runtime_name := integration_runtime_name config;
       parameters := parameters config; annotations := annotations config;
       additional_properties := additional_properties config |}.

(** Canned replies. *)
Definition not_found : Reply := (no_resource (status 404), Some "404 Not Found").
Definition server_error : Reply := (no_resource (status 500), Some "500 Internal Server Error").
Definition ok : Reply := (no_resource (status 200), None).
Definition found (d : ResourceData) (id : string) : Reply :=
  ({| Resource_Response := status 200;
      Properties := Properties (linkedService d);
      ID := Some id; Name := Some (name d);
      Resource_Type := Some "Microsoft.DataFactory/factories/linkedservices" |},
   None).

(** The handlers on the scripted service, started on the attribute set [d]
    with an empty log. *)
Definition start (d : ResourceData) (script : list Reply) : State (list Reply) :=
  MkState d script [].

Definition CreateUpdate : M (list Reply) unit :=
  resourceDataFactoryLinkedServiceAzureSQLDatabaseCreateUpdate quote ResponseWasNotFound
    LinkedServiceID ImportAsExistsError.

Definition Read : M (list Reply) unit :=
  resourceDataFactoryLinkedServiceAzureSQLDatabaseRead quote ResponseWasNotFound
    LinkedServiceID.

Definition Delete : M (list Reply) unit :=
  resourceDataFactoryLinkedServiceAzureSQLDatabaseDelete quote ResponseWasNotFound
    LinkedServiceID.

(** A linked service of another kind under the same identifier. *)
Definition other_kind : Reply :=
  ({| Resource_Response := status 200;
      Properties := Some (OtherLinkedService "AzureBlobStorage");
      ID := Some config_ID; Name := Some "ls";
      Resource_Type := Some "Microsoft.DataFactory/factories/linkedservices" |},
   None).

(** An Azure SQL Database linked service that carries its type properties and
    nothing else: no tenant, no service principal, no password, no
    description, no runtime, no parameters, no annotations. *)
Definition bare : Reply :=
  ({| Resource_Response := status 200;
      Properties :=
        Some (AzureSQLDatabase
                {| TypeProperties :=
                     Some {| ConnectionString := None; Password := None;
                             ServicePrincipalID := None;
                             ServicePrincipalKey := None; Tenant := None |};
                   AdditionalProperties := ∅; ConnectVia := None;
                   Description := None; Parameters := ∅;
                   Annotations := None |});
      ID := Some config_ID; Name := Some "ls";
      Resource_Type := Some "Microsoft.DataFactory/factories/linkedservices" |},
   None).

(** An answer whose identifier does not parse. *)
Definition found_elsewhere : Reply :=
  ({| Resource_Response := status 200;
      Properties := Properties (linkedService config);
      ID := Some "/elsewhere"; Name := Some "ls";
      Resource_Type := Some "Microsoft.DataFactory/factories/linkedservices" |},
   None).

End Scripted.


(** ** Vocabulary of the properties *)

(** The type properties of a request body. *)
Definition typeProperties_of (r : LinkedServiceResource)
  : option AzureSQLDatabaseLinkedServiceTypeProperties :=
  match Properties r with
  | Some (AzureSQLDatabase sql) => TypeProperties sql
  | _ => None
  end.

(** The (resource group, data factory, name) triple of a configuration and of
    a parsed identifier. *)
Definition configured (d : ResourceData) : string * string * string :=
  (resource_group_name d, data_factory_name d, name d).

Definition parsed (id : LinkedServiceId) : string * string * string :=
  (ResourceGroup id, FactoryName id, LinkedServiceName id).

(** The events the handlers log. *)
Definition Get_event (s : Site) (t : string * string * string)
  (r : LinkedServiceResource * option error) : Event :=
  {| site := s; call := Get_ t.1.1 t.1.2 t.2 ""; outcome := Resource r.1 r.2 |}.

Definition CreateOrUpdate_event (t : string * string * string)
  (body : LinkedServiceResource) (r : LinkedServiceResource * option error) : Event :=
  {| site := AtCreateOrUpdate; call := CreateOrUpdate_ t.1.1 t.1.2 t.2 body "";
     outcome := Resource r.1 r.2 |}.

Definition Delete_event (t : string * string * string)
  (r : autorest_Response * option error) : Event :=
  {| site := AtDelete; call := Delete_ t.1.1 t.1.2 t.2; outcome := Plain r.1 r.2 |}.

Section Vocabulary.

Variable quote : string → string.
Variable ResponseWasNotFound : autorest_Response → bool.

(** A failed call is excused when the handler tests the response at that
    site and the response is a not-found one. *)
Definition excused (e : Event) : bool :=
  tests_not_found (site e) && ResponseWasNotFound (response e).

(** The message names, each rendered with [%q], the linked service, the data
    factory and the resource group that the call of [e] addressed. *)
Definition names (msg : error) (e : Event) : Prop :=
  contains (quote (addressed (call e)).2) msg
  ∧ contains (quote (addressed (call e)).1.2) msg
  ∧ contains (quote (addressed (call e)).1.1) msg.

(** The events [l] logged by a run that ended in [r] obey the file's error
    discipline: a failed call that is not excused is the last call, and [r]
    is an error naming what the call addressed. *)
Definition disciplined {A} (l : list Event) (r : A + Exit) : Prop :=
  ∀ pre e post, l = pre ++ e :: post →
    is_Some (failure e) → excused e = false →
    post = [] ∧ ∃ msg, r = inr (Return msg) ∧ names msg e.

End Vocabulary.

(** The calls [CreateUpdate] makes itself, on the configuration [d]: a [Get]
    of the configured triple before and after, and in between a
    [CreateOrUpdate] of the configured triple with the request built from
    [d]. *)
Definition made_by_CreateUpdate (d : ResourceData) (e : Event) : Prop :=
  match site e with
  | AtCheckExisting | AtRetrieve =>
      call e = Get_ (resource_group_name d) (data_factory_name d) (name d) ""
  | AtCreateOrUpdate =>
      call e = CreateOrUpdate_ (resource_group_name d) (data_factory_name d)
                 (name d) (linkedService d) ""
  | AtRead | AtDelete => False
  end.

(** A handler that returns [nil] leaves as the resource's ID the identifier
    that its [Get] after [CreateOrUpdate] returned. *)
Definition returned_ID_is_the_ID {W} (handler : M W unit) : Prop :=
  ∀ st st', handler st = (inl tt, st') →
    ∃ pre get post,
      calls st' = calls st ++ pre ++ get :: post
      ∧ site get = AtRetrieve
      ∧ returned_ID get = Some (Id (data st')).

(** The request bodies of the [CreateOrUpdate] calls among [l]. *)
Definition sent_bodies (l : list Event) : list LinkedServiceResource :=
  flat_map (λ e, match call e with
                 | CreateOrUpdate_ _ _ _ body _ => [body]
                 | _ => []
                 end) l.

(** The call [Read] makes, on the parsed identifier [id]. *)
Definition made_by_Read (id : LinkedServiceId) (e : Event) : Prop :=
  site e = AtRead
  ∧ call e = Get_ (ResourceGroup id) (FactoryName id) (LinkedServiceName id) "".

(** The call [Delete] makes, on the parsed identifier [id]. *)
Definition made_by_Delete (id : LinkedServiceId) (e : Event) : Prop :=
  site e = AtDelete
  ∧ call e = Delete_ (ResourceGroup id) (FactoryName id) (LinkedServiceName id).

(** The methods of the client, and the method of a call. *)
Inductive Method := MethodGet | MethodCreateOrUpdate | MethodDelete.

Definition method (c : Call) : Method :=
  match c with
  | Get_ _ _ _ _ => MethodGet
  | CreateOrUpdate_ _ _ _ _ _ => MethodCreateOrUpdate
  | Delete_ _ _ _ => MethodDelete
  end.

(** The methods an operation calls when nothing stops it, in order: for
    create and update the [Get] of lines 164-165 (new resources only), then
    lines 231, 235 and 259; for read line 259; for delete line 331. *)
Definition protocol (op : Operation) (d : ResourceData) : list Method :=
  match op with
  | OpCreate | OpUpdate =>
      (if IsNewResource d then [MethodGet] else [])
      ++ [MethodCreateOrUpdate; MethodGet; MethodGet]
  | OpRead => [MethodGet]
  | OpDelete => [MethodDelete]
  end.

(** * Properties *)

(** ** Strings *)

Lemma append_assoc (a b c : string) : (a +:+ b) +:+ c = a +:+ b +:+ c.
Proof.
  induction a as [|x a IH]; [reflexivity|].
  change (String x ((a +:+ b) +:+ c) = String x (a +:+ b +:+ c)).
  now f_equal.
Qed.

Lemma contains_here (s post : string) : contains s (s +:+ post).
Proof. exists "", post. reflexivity. Qed.

Lemma contains_later (s pre t : string) : contains s t → contains s (pre +:+ t).
Proof.
  intros (p & q & ->). exists (pre +:+ p), q. now rewrite append_assoc.
Qed.

Create HintDb contains.
#[local] Hint Resolve contains_here contains_later : contains.

Section Properties.

Context {W : Type} {Client : LinkedServicesClient W}.
Variable quote : string → string.
Variable ResponseWasNotFound : autorest_Response → bool.
Variable LinkedServiceID : string → LinkedServiceId + error.
Variable ImportAsExistsError : string → string → error.

Abbreviation Read :=
  (resourceDataFactoryLinkedServiceAzureSQLDatabaseRead quote
     ResponseWasNotFound LinkedServiceID).
Abbreviation before_Read :=
  (CreateUpdate_before_Read quote ResponseWasNotFound ImportAsExistsError).
Abbreviation CreateUpdate :=
  (resourceDataFactoryLinkedServiceAzureSQLDatabaseCreateUpdate quote
     ResponseWasNotFound LinkedServiceID ImportAsExistsError).
Abbreviation Delete :=
  (resourceDataFactoryLinkedServiceAzureSQLDatabaseDelete quote
     ResponseWasNotFound LinkedServiceID).
Abbreviation Errorf' := (Errorf quote).
Abbreviation flatten' := (flatten (W:=W) quote).

(** Unfold the monad's operations in the goal, or in a hypothesis. *)
Ltac run :=
  unfold bind, ret, update, throw, panic, get_data,
         call_Get, call_CreateOrUpdate, call_Delete; simpl.

Ltac run_in H :=
  unfold bind, ret, update, throw, panic, get_data,
         call_Get, call_CreateOrUpdate, call_Delete in H; simpl in H.

Lemma Errorf_contains what n df rg rest :
  contains (quote n) (Errorf' what n df rg rest)
  ∧ contains (quote df) (Errorf' what n df rg rest)
  ∧ contains (quote rg) (Errorf' what n df rg rest).
Proof. unfold Errorf. auto 10 with contains. Qed.

(** ** One step of each handler *)

Lemma Read_run (st : State W) :
  Read st =
  match LinkedServiceID (Id (data st)) with
  | inr err => (inr (Return err), st)
  | inl id =>
    let '(r, w) := client_Get (ResourceGroup id) (FactoryName id)
                     (LinkedServiceName id) "" (remote st) in
    let log := calls st ++ [Get_event AtRead (parsed id) r] in
    match r.2 with
    | Some err =>
        if ResponseWasNotFound (Resource_Response r.1) then
          (inl tt, MkState (SetId "" (data st)) w log)
        else
          (inr (Return (Errorf' "Error retrieving Data Factory Linked Service AzureSQLDatabase "
                          (LinkedServiceName id) (FactoryName id) (ResourceGroup id)
                          err)),
           MkState (data st) w log)
    | None => flatten' id r.1 (MkState (data st) w log)
    end
  end.
Proof.
  unfold resourceDataFactoryLinkedServiceAzureSQLDatabaseRead. run.
  destruct (LinkedServiceID _) as [id|err]; [|reflexivity].
  destruct (client_Get _ _ _ _ _) as [[resp [err|]] w]; simpl; [|reflexivity].
  destruct (ResponseWasNotFound _); reflexivity.
Qed.

Lemma Delete_run (st : State W) :
  Delete st =
  match LinkedServiceID (Id (data st)) with
  | inr err => (inr (Return err), st)
  | inl id =>
    let '(r, w) := client_Delete (ResourceGroup id) (FactoryName id)
                     (LinkedServiceName id) (remote st) in
    let st' := MkState (data st) w (calls st ++ [Delete_event (parsed id) r]) in
    match r.2 with
    | Some err =>
        if ResponseWasNotFound r.1 then (inl tt, st')
        else
          (inr (Return (Errorf' "deleting Data Factory Linked Service AzureSQLDatabase "
                          (LinkedServiceName id) (FactoryName id) (ResourceGroup id)
                          err)),
           st')
    | None => (inl tt, st')
    end
  end.
Proof.
  unfold resourceDataFactoryLinkedServiceAzureSQLDatabaseDelete. run.
  destruct (LinkedServiceID _) as [id|err]; [|reflexivity].
  destruct (client_Delete _ _ _ _) as [[resp [err|]] w]; simpl; [|reflexivity].
  destruct (ResponseWasNotFound _); reflexivity.
Qed.

(** [flatten] makes no remote call, and writes neither the identifier, the
    new-resource mark, the connection string nor the service-principal
    key. *)
Lemma flatten_frame id resp (st : State W) :
  remote (flatten' id resp st).2 = remote st
  ∧ calls (flatten' id resp st).2 = calls st
  ∧ Id (data (flatten' id resp st).2) = Id (data st)
  ∧ IsNewResource (data (flatten' id resp st).2) = IsNewResource (data st)
  ∧ connection_string (data (flatten' id resp st).2) = connection_string (data st)
  ∧ service_principal_key (data (flatten' id resp st).2)
    = service_principal_key (data st).
Proof.
  unfold flatten. run.
  repeat case_match; simpl; simplify_eq/=; auto 10.
Qed.

(** C8. [Read] never writes [connection_string] nor [service_principal_key]:
    whatever the remote service answers, both attributes are after the call
    what they were before it.  On create and update the connection string
    goes out only wrapped in a [SecureString]. *)
Theorem Read_leaves_connection_string_and_key (st : State W) (d : ResourceData) :
  connection_string (data (Read st).2) = connection_string (data st)
  ∧ service_principal_key (data (Read st).2) = service_principal_key (data st)
  ∧ ∃ typeProperties,
      typeProperties_of (linkedService d) = Some typeProperties
      ∧ ConnectionString typeProperties
        = (if decide (connection_string d = "") then None
           else Some {| SecureString_Value := Some (connection_string d);
                        SecureString_Type := TypeSecureString |}).
Proof.
  assert (connection_string (data (Read st).2) = connection_string (data st)
          ∧ service_principal_key (data (Read st).2)
            = service_principal_key (data st)) as [Hc Hk].
  { rewrite Read_run.
    destruct (LinkedServiceID _) as [id|err]; [|done].
    destruct (client_Get _ _ _ _ _) as [[resp [err|]] w]; simpl.
    - destruct (ResponseWasNotFound _); done.
    - match goal with |- context [flatten' ?i ?r ?s] =>
        destruct (flatten_frame i r s) as (_ & _ & _ & _ & ? & ?) end.
      done. }
  split_and!; [exact Hc | exact Hk |].
  unfold linkedService, typeProperties_of, GetOk_string; simpl.
  destruct (use_managed_identity d); simpl;
    (eexists; split; [reflexivity|]); simpl;
    destruct (decide (connection_string d = "")); reflexivity.
Qed.

(** ** The log of a run *)

Abbreviation handler :=
  (resourceDataFactoryLinkedServiceAzureSQLDatabase quote ResponseWasNotFound
     LinkedServiceID ImportAsExistsError).
Abbreviation excused' := (excused ResponseWasNotFound).
Abbreviation names' := (names quote).
Abbreviation disciplined' := (disciplined quote ResponseWasNotFound).

Lemma CreateUpdate_run (st : State W) :
  CreateUpdate st =
  match before_Read st with
  | (inl _, st1) => Read st1
  | (inr e, st1) => (inr e, st1)
  end.
Proof. reflexivity. Qed.

Lemma disciplined_nil {A} (r : A + Exit) : disciplined' [] r.
Proof. unfold disciplined. intros [|x pre] e post H; discriminate H. Qed.

Lemma disciplined_app {A B} l1 l2 (a : A) (r : B + Exit) :
  disciplined' l1 (inl a) → disciplined' l2 r → disciplined' (l1 ++ l2) r.
Proof.
  unfold disciplined. intros H1 H2 pre e post Heq Hfail Hexc.
  apply app_eq_inv in Heq as [(k & -> & Hk)|(k & -> & Hk)].
  - destruct k as [|x k]; simpl in Hk.
    + subst l2. apply (H2 [] e post); auto.
    + injection Hk as <- ->.
      destruct (H1 pre e k eq_refl Hfail Hexc) as (_ & msg & [=] & _).
  - subst l2. apply (H2 k e post); auto.
Qed.

(** Case analysis of a run of [CreateUpdate_before_Read] or [Delete] whose equation
    is [H]. *)
Ltac cases H :=
  unfold CreateUpdate_before_Read,
    resourceDataFactoryLinkedServiceAzureSQLDatabaseDelete in H;
  unfold bind, ret, update, throw, panic, get_data,
         call_Get, call_CreateOrUpdate, call_Delete in H;
  simpl in H;
  repeat (case_match; simpl in H; simplify_eq/=);
  repeat match goal with
    | H : negb _ = false |- _ => apply negb_false_iff in H
    | H : negb _ = true |- _ => apply negb_true_iff in H
    end.

(** The log of the goal is the initial log followed by an explicit list. *)
Ltac explicit_log :=
  rewrite <- ?app_assoc; simpl;
  first [ eexists; split; [reflexivity|]
        | exists []; split; [symmetry; apply app_nil_r|] ].

(** [disciplined] for an explicit list of events: try each position. *)
Ltac discipline :=
  let pre := fresh "pre" in
  let ev := fresh "ev" in
  let post := fresh "post" in
  let Heq := fresh "Heq" in
  let Hfail := fresh "Hfail" in
  let Hexc := fresh "Hexc" in
  unfold disciplined; intros pre ev post Heq Hfail Hexc;
  repeat (destruct pre as [|? pre]; simplify_eq/=);
  first
    [ by destruct Hfail as [? [=]]
    | exfalso; unfold excused, response in Hexc; simpl in Hexc; congruence
    | split; [done|]; eexists; split; [reflexivity|]; apply Errorf_contains ].

Lemma store_disciplined (st st1 : State W) (r : unit + Exit) :
  before_Read st = (r, st1) →
  ∃ l, calls st1 = calls st ++ l ∧ disciplined' l r.
Proof.
  intros H. cases H; explicit_log; discipline.
Qed.

Lemma Read_disciplined (st st1 : State W) (r : unit + Exit) :
  Read st = (r, st1) →
  ∃ l, calls st1 = calls st ++ l ∧ disciplined' l r.
Proof.
  intros H. rewrite Read_run in H.
  destruct (LinkedServiceID _) as [id|err]; simplify_eq.
  2:{ explicit_log. discipline. }
  destruct (client_Get _ _ _ _ _) as [[resp [err|]] w] eqn:Hget; simpl in H.
  - destruct (ResponseWasNotFound _) eqn:Hnf; simplify_eq;
      explicit_log; discipline.
  - match type of H with flatten' ?i ?r ?s = _ =>
      destruct (flatten_frame i r s) as (_ & Hc & _) end.
    rewrite H in Hc. simpl in Hc. rewrite Hc.
    explicit_log. discipline.
Qed.

Lemma Delete_disciplined (st st1 : State W) (r : unit + Exit) :
  Delete st = (r, st1) →
  ∃ l, calls st1 = calls st ++ l ∧ disciplined' l r.
Proof.
  intros H. cases H; explicit_log; discipline.
Qed.

Lemma CreateUpdate_disciplined (st st2 : State W) (r : unit + Exit) :
  CreateUpdate st = (r, st2) →
  ∃ l, calls st2 = calls st ++ l ∧ disciplined' l r.
Proof.
  rewrite CreateUpdate_run.
  destruct (before_Read st) as [[[]|e] st1] eqn:Hstore; intros H.
  - apply store_disciplined in Hstore as (l1 & Hl1 & H1).
    apply Read_disciplined in H as (l2 & Hl2 & H2).
    exists (l1 ++ l2). split.
    + rewrite Hl2, Hl1. symmetry. apply app_assoc.
    + eapply disciplined_app; eauto.
  - simplify_eq. by apply store_disciplined.
Qed.

(** C4. In every run of a handler, a remote call that fails and is not
    excused as not-found (a not-found response at a site that tests for it)
    is the last remote call of the run, and the handler returns an error
    whose message contains, each rendered with the [%q] verb, the linked
    service name, the data factory name and the resource group the call
    addressed. *)
Theorem failures_are_returned (op : Operation) (st st' : State W)
    (r : unit + Exit) (pre post : list Event) (e : Event) :
  handler op st = (r, st') →
  calls st' = calls st ++ pre ++ e :: post →
  is_Some (failure e) →
  excused' e = false →
  post = [] ∧ ∃ msg, r = inr (Return msg) ∧ names' msg e.
Proof.
  intros Hrun Hlog Hfail Hexc.
  assert (∃ l, calls st' = calls st ++ l ∧ disciplined' l r) as (l & Hl & Hd).
  { destruct op; simpl in Hrun.
    - by apply CreateUpdate_disciplined.
    - by apply Read_disciplined.
    - by apply CreateUpdate_disciplined.
    - by apply Delete_disciplined. }
  rewrite Hl in Hlog. apply app_inv_head in Hlog. subst l.
  by apply (Hd pre e post).
Qed.

(** ** What is called, and with what *)

Lemma made_by_CreateUpdate_addressed d e :
  made_by_CreateUpdate d e →
  site e ≠ AtRead ∧ addressed (call e) = configured d
  ∧ sent_bodies [e] = match site e with
                      | AtCreateOrUpdate => [linkedService d]
                      | _ => []
                      end.
Proof.
  unfold made_by_CreateUpdate, sent_bodies. simpl.
  destruct (site e); intros H; try done; rewrite H; done.
Qed.

Lemma store_calls (st : State W) :
  ∃ l, calls (before_Read st).2 = calls st ++ l
       ∧ Forall (made_by_CreateUpdate (data st)) l.
Proof.
  destruct (before_Read st) as [r st1] eqn:H. simpl.
  cases H; explicit_log; repeat constructor.
Qed.

Lemma Read_calls (st : State W) :
  match LinkedServiceID (Id (data st)) with
  | inr err => Read st = (inr (Return err), st)
  | inl id =>
      ∃ l, calls (Read st).2 = calls st ++ l ∧ Forall (made_by_Read id) l
  end.
Proof.
  rewrite Read_run.
  destruct (LinkedServiceID _) as [id|err]; [|done].
  destruct (client_Get _ _ _ _ _) as [[resp [err|]] w] eqn:Hget; simpl.
  - destruct (ResponseWasNotFound _); simpl;
      explicit_log; repeat constructor.
  - match goal with |- context [flatten' ?i ?r ?s] =>
      destruct (flatten_frame i r s) as (_ & -> & _) end.
    simpl. explicit_log. repeat constructor.
Qed.

Lemma Delete_calls (st : State W) :
  match LinkedServiceID (Id (data st)) with
  | inr err => Delete st = (inr (Return err), st)
  | inl id =>
      ∃ l, calls (Delete st).2 = calls st ++ l ∧ Forall (made_by_Delete id) l
  end.
Proof.
  destruct (Delete st) as [r st1] eqn:H. simpl.
  unfold resourceDataFactoryLinkedServiceAzureSQLDatabaseDelete in H. run_in H.
  destruct (LinkedServiceID _) as [id|err]; [|done].
  repeat (case_match; simpl in H; simplify_eq/=);
    explicit_log; repeat constructor.
Qed.

Lemma sent_bodies_app l1 l2 :
  sent_bodies (l1 ++ l2) = sent_bodies l1 ++ sent_bodies l2.
Proof. apply flat_map_app. Qed.

Lemma made_by_CreateUpdate_bodies d l :
  Forall (made_by_CreateUpdate d) l →
  Forall (λ body, body = linkedService d) (sent_bodies l).
Proof.
  induction 1 as [|e l He _ IH]; [constructor|].
  change (e :: l) with ([e] ++ l). rewrite sent_bodies_app.
  apply Forall_app. split; [|exact IH].
  apply made_by_CreateUpdate_addressed in He as (_ & _ & ->).
  destruct (site e); repeat constructor.
Qed.

Lemma made_by_Read_bodies id l :
  Forall (made_by_Read id) l → sent_bodies l = [].
Proof.
  induction 1 as [|e l [_ He] _ IH]; [done|].
  change (e :: l) with ([e] ++ l). rewrite sent_bodies_app, IH.
  unfold sent_bodies. simpl. by rewrite He.
Qed.

(** C9. Every remote call addresses a (resource group, data factory, linked
    service) triple.  In a run of [CreateUpdate] the calls it makes itself
    address the triple of the configuration attributes, and the call of its
    closing [Read] the triple parsed from the identifier stored by then.
    [Read] and [Delete] address the triple parsed from the stored
    identifier, and when it does not parse they return the parse error with
    the state, log included, as it was: no remote call is made. *)
Theorem calls_address_the_resource (st : State W) :
  (∃ l, calls (CreateUpdate st).2 = calls st ++ l
        ∧ Forall (λ e, match site e with
                       | AtRead =>
                           ∃ st1 id,
                             before_Read st = (inl tt, st1)
                             ∧ LinkedServiceID (Id (data st1)) = inl id
                             ∧ addressed (call e) = parsed id
                       | _ => addressed (call e) = configured (data st)
                       end) l)
  ∧ match LinkedServiceID (Id (data st)) with
    | inr err =>
        Read st = (inr (Return err), st) ∧ Delete st = (inr (Return err), st)
    | inl id =>
        (∃ l, calls (Read st).2 = calls st ++ l
              ∧ Forall (λ e, addressed (call e) = parsed id) l)
        ∧ (∃ l, calls (Delete st).2 = calls st ++ l
                ∧ Forall (λ e, addressed (call e) = parsed id) l)
    end.
Proof.
  split.
  - rewrite CreateUpdate_run.
    destruct (store_calls st) as (l1 & Hl1 & H1).
    assert (Forall (λ e, match site e with
                         | AtRead =>
                             ∃ st1 id,
                               before_Read st = (inl tt, st1)
                               ∧ LinkedServiceID (Id (data st1)) = inl id
                               ∧ addressed (call e) = parsed id
                         | _ => addressed (call e) = configured (data st)
                         end) l1) as H1'.
    { eapply Forall_impl; [exact H1|]. intros e He.
      apply made_by_CreateUpdate_addressed in He as (Hs & Ha & _).
      destruct (site e); done. }
    destruct (before_Read st) as [[[]|x] st1] eqn:Hs; simpl in Hl1;
      [|by exists l1].
    pose proof (Read_calls st1) as HR.
    destruct (LinkedServiceID (Id (data st1))) as [id|err] eqn:Hid.
    + destruct HR as (l2 & Hl2 & H2). exists (l1 ++ l2). split.
      * rewrite Hl2, Hl1. symmetry. apply app_assoc.
      * apply Forall_app. split; [exact H1'|].
        eapply Forall_impl; [exact H2|]. intros e [-> He].
        exists st1, id. rewrite He. done.
    + rewrite HR. by exists l1.
  - pose proof (Read_calls st) as HR. pose proof (Delete_calls st) as HD.
    destruct (LinkedServiceID (Id (data st))) as [id|err]; [|done].
    destruct HR as (l & Hl & H). destruct HD as (l' & Hl' & H').
    split; [exists l|exists l']; (split; [done|]).
    + eapply Forall_impl; [exact H|]. by intros e [_ ->].
    + eapply Forall_impl; [exact H'|]. by intros e [_ ->].
Qed.

(** C7. Every request [CreateUpdate] sends with [CreateOrUpdate] is the one
    built from the configuration, and that request carries the tenant in
    both authentication modes; with [use_managed_identity] it carries neither
    a service-principal ID nor a service-principal key, and without it both:
    the ID and a key of type [SecureString], holding the configured strings
    (the empty string for an attribute that is not set). *)
Theorem request_authentication (st : State W) :
  (∃ l, calls (CreateUpdate st).2 = calls st ++ l
        ∧ Forall (λ body, body = linkedService (data st)) (sent_bodies l))
  ∧ ∃ typeProperties,
      typeProperties_of (linkedService (data st)) = Some typeProperties
      ∧ Tenant typeProperties = Some (tenant_id (data st))
      ∧ if use_managed_identity (data st) then
          ServicePrincipalID typeProperties = None
          ∧ ServicePrincipalKey typeProperties = None
        else
          ServicePrincipalID typeProperties
          = Some (service_principal_id (data st))
          ∧ ServicePrincipalKey typeProperties
            = Some (SecretBase_SecureString
                      {| SecureString_Value := Some (service_principal_key (data st));
                         SecureString_Type := TypeSecureString |}).
Proof.
  split.
  - rewrite CreateUpdate_run.
    destruct (store_calls st) as (l1 & Hl1 & H1).
    apply made_by_CreateUpdate_bodies in H1.
    destruct (before_Read st) as [[[]|x] st1] eqn:Hs; simpl in Hl1;
      [|by exists l1].
    pose proof (Read_calls st1) as HR.
    destruct (LinkedServiceID (Id (data st1))) as [id|err] eqn:Hid.
    + destruct HR as (l2 & Hl2 & H2). exists (l1 ++ l2). split.
      * rewrite Hl2, Hl1. symmetry. apply app_assoc.
      * rewrite sent_bodies_app, (made_by_Read_bodies id l2 H2), app_nil_r.
        exact H1.
    + rewrite HR. by exists l1.
  - unfold linkedService, typeProperties_of. simpl.
    destruct (use_managed_identity (data st)); simpl;
      (eexists; split; [reflexivity|]); simpl; done.
Qed.

(** ** Not found, and already there *)

(** C2. A [Get] that fails with a not-found response makes [Read] clear the
    stored identifier and return [nil]; a [Delete] call that fails with a
    not-found response makes [Delete] return [nil].  Neither surfaces an
    error, and nothing else changes. *)
Theorem not_found_is_already_deleted (st : State W) (id : LinkedServiceId) :
  LinkedServiceID (Id (data st)) = inl id →
  (∀ resp err w,
      client_Get (ResourceGroup id) (FactoryName id) (LinkedServiceName id) ""
        (remote st) = ((resp, Some err), w) →
      ResponseWasNotFound (Resource_Response resp) = true →
      Read st = (inl tt,
                  MkState (SetId "" (data st)) w
                    (calls st ++ [Get_event AtRead (parsed id) (resp, Some err)])))
  ∧ (∀ response err w,
      client_Delete (ResourceGroup id) (FactoryName id) (LinkedServiceName id)
        (remote st) = ((response, Some err), w) →
      ResponseWasNotFound response = true →
      Delete st = (inl tt,
                    MkState (data st) w
                      (calls st ++ [Delete_event (parsed id) (response, Some err)]))).
Proof.
  intros Hid. split.
  - intros resp err w Hget Hnf. rewrite Read_run, Hid, Hget. simpl.
    by rewrite Hnf.
  - intros response err w Hdel Hnf. rewrite Delete_run, Hid, Hdel. simpl.
    by rewrite Hnf.
Qed.

(** C3. On a new resource [CreateUpdate] first gets the linked service of
    the configured resource group, data factory and name.  When the answer
    carries a non-empty ID the run ends there with an error: nothing but
    that [Get] was called (so no [CreateOrUpdate]), and the stored state is
    what it was.  Unless the [Get] itself failed other than by not-found,
    the error is the import-as-exists error for that ID. *)
Theorem existing_resource_is_not_overwritten (st : State W)
    (existing : LinkedServiceResource) (err : option error) (w : W) :
  IsNewResource (data st) = true →
  client_Get (resource_group_name (data st)) (data_factory_name (data st))
    (name (data st)) "" (remote st) = ((existing, err), w) →
  let checked :=
    calls st ++ [Get_event AtCheckExisting (configured (data st)) (existing, err)] in
  (∃ rest, calls (CreateUpdate st).2 = checked ++ rest)
  ∧ ∀ existingID,
      ID existing = Some existingID → existingID ≠ "" →
      (∃ msg, CreateUpdate st = (inr (Return msg), MkState (data st) w checked))
      ∧ (err = None ∨ ResponseWasNotFound (Resource_Response existing) = true →
         CreateUpdate st
         = (inr (Return (ImportAsExistsError
                           "azurerm_data_factory_linked_service_azure_sql_database"
                           existingID)),
            MkState (data st) w checked)).
Proof.
  intros Hnew Hget checked. split.
  - rewrite CreateUpdate_run.
    destruct (before_Read st) as [r st1] eqn:H.
    assert (∃ rest, calls st1 = checked ++ rest) as (rest1 & Hrest1).
    { subst checked.
      cases H; eexists; rewrite <- ?app_assoc; simpl; reflexivity. }
    destruct r as [[]|x]; [|by exists rest1].
    destruct (Read_disciplined st1 (Read st1).2 (Read st1).1)
      as (l2 & -> & _); [by destruct (Read st1)|].
    exists (rest1 ++ l2). rewrite Hrest1. symmetry. apply app_assoc.
  - intros existingID HID Hne.
    assert (∀ msg, before_Read st = (inr (Return msg), MkState (data st) w checked)
                   → CreateUpdate st = (inr (Return msg), MkState (data st) w checked))
      as Hstop.
    { intros msg H. rewrite CreateUpdate_run. by rewrite H. }
    assert (∃ msg, before_Read st
                   = (inr (Return msg), MkState (data st) w checked)
                   ∧ (err = None
                      ∨ ResponseWasNotFound (Resource_Response existing) = true →
                      msg = ImportAsExistsError
                              "azurerm_data_factory_linked_service_azure_sql_database"
                              existingID)) as (msg & Hs & Hmsg).
    { unfold CreateUpdate_before_Read. run. rewrite Hnew, Hget. simpl.
      destruct err as [err|]; simpl.
      - destruct (ResponseWasNotFound _) eqn:Hnf; simpl.
        + rewrite HID. destruct (decide (existingID ≠ "")) as [_|]; [|done].
          eauto.
        + eexists. split; [reflexivity|]. by intros [|].
      - rewrite HID. destruct (decide (existingID ≠ "")) as [_|]; [|done].
        eauto. }
    split; [exists msg; by apply Hstop|].
    intros H. rewrite <- (Hmsg H). by apply Hstop.
Qed.

(** C6. When the [Get] of [Read] succeeds with an Azure SQL Database linked
    service that carries its type properties, [Read] returns [nil] having set
    [use_managed_identity] to [false] if the response has a service-principal
    ID and to [true] if it has none, whatever the attribute was before; and
    [service_principal_id] is the ID of the response if it has one, and
    otherwise what it was before. *)
Theorem Read_sets_use_managed_identity (st : State W) (id : LinkedServiceId)
    (resp : LinkedServiceResource) (w : W)
    (sql : AzureSQLDatabaseLinkedService)
    (typeProperties : AzureSQLDatabaseLinkedServiceTypeProperties) :
  LinkedServiceID (Id (data st)) = inl id →
  client_Get (ResourceGroup id) (FactoryName id) (LinkedServiceName id) ""
    (remote st) = ((resp, None), w) →
  Properties resp = Some (AzureSQLDatabase sql) →
  TypeProperties sql = Some typeProperties →
  (Read st).1 = inl tt
  ∧ use_managed_identity (data (Read st).2)
    = match ServicePrincipalID typeProperties with
      | Some _ => false
      | None => true
      end
  ∧ service_principal_id (data (Read st).2)
    = match ServicePrincipalID typeProperties with
      | Some servicePrincipalID => servicePrincipalID
      | None => service_principal_id (data st)
      end.
Proof.
  intros Hid Hget Hprops Htp. rewrite Read_run, Hid, Hget. simpl.
  unfold flatten. run. rewrite Hprops. simpl. rewrite Htp.
  repeat (case_match; simplify_eq/=); done.
Qed.

(** ** Round trip *)

Lemma flatten_expand_parameters (input : gmap string string) :
  flattenDataFactoryParameters (expandDataFactoryParameters input) = input.
Proof.
  apply map_eq. intros k.
  unfold flattenDataFactoryParameters, expandDataFactoryParameters.
  rewrite lookup_omap, lookup_fmap. by destruct (input !! k).
Qed.

Lemma flatten_no_parameters : flattenDataFactoryParameters ∅ = ∅.
Proof. apply omap_empty. Qed.

Lemma flatten_expand_key_vault_password (config : KeyVaultPassword)
    (r : AzureKeyVaultSecretReference) :
  expandAzureKeyVaultPassword [config] = Some r →
  flattenAzureKeyVaultPassword r = [config].
Proof. intros [= <-]. by destruct config. Qed.

(** The request built from [d], read back on state [d]. *)
Lemma flatten_linkedService (st : State W) (id : LinkedServiceId)
    (resp : LinkedServiceResource) :
  (length (key_vault_password (data st)) ≤ key_vault_password_MaxItems)%nat →
  parsed id = configured (data st) →
  Name resp = Some (name (data st)) →
  Properties resp = Properties (linkedService (data st)) →
  flatten' id resp st = (inl tt, st).
Proof.
  unfold key_vault_password_MaxItems.
  intros Hmax [= Hrg Hdf Hn] Hname Hprops.
  unfold flatten. run. rewrite Hprops, Hname, Hrg, Hdf. simpl.
  destruct st as [d w log]. simpl in *.
  unfold linkedService, GetOk_string, GetOk_list, GetOk_map. simpl.
  destruct d as [i nw n df rg cs ds kvp umi spid spk tn irn ps an ap].
  simpl in *.
  destruct umi, kvp as [|config [|config' kvp]], an as [|a an];
    simpl in *; try lia;
    destruct (decide (irn = "")), (decide (ps = ∅)), (decide (ap = ∅));
    simpl; subst;
    rewrite ?flatten_expand_parameters, ?flatten_no_parameters;
    try done.
  all: destruct config; done.
Qed.

(** Without its type properties the response is never flattened: reading the
    promoted fields panics, after the name, the resource group and the data
    factory name have been written. *)
Lemma Read_panics_without_type_properties (st : State W) (id : LinkedServiceId)
    (resp : LinkedServiceResource) (w : W) (sql : AzureSQLDatabaseLinkedService) :
  LinkedServiceID (Id (data st)) = inl id →
  client_Get (ResourceGroup id) (FactoryName id) (LinkedServiceName id) ""
    (remote st) = ((resp, None), w) →
  Properties resp = Some (AzureSQLDatabase sql) →
  TypeProperties sql = None →
  (Read st).1 = inr Panic
  ∧ use_managed_identity (data (Read st).2) = use_managed_identity (data st).
Proof.
  intros Hid Hget Hprops Htp. rewrite Read_run, Hid, Hget. simpl.
  unfold flatten. run. rewrite Hprops. simpl. by rewrite Htp.
Qed.



(** ** The stored identifier *)

Lemma store_result (st st1 : State W) (r : unit + Exit) :
  before_Read st = (r, st1) →
  ∃ l, calls st1 = calls st ++ l
    ∧ match r with
      | inl _ =>
          ∃ pre cu get respID,
            l = pre ++ [cu; get]
            ∧ site cu = AtCreateOrUpdate ∧ failure cu = None
            ∧ site get = AtRetrieve ∧ failure get = None
            ∧ returned_ID get = Some respID
            ∧ data st1 = SetId respID (data st)
            ∧ Forall (λ e, site e = AtRetrieve → returned_ID e ≠ None) l
      | inr x =>
          data st1 = data st
          ∧ (∃ msg, x = Return msg)
          ∧ ∀ pre get post,
              l = pre ++ get :: post → site get = AtRetrieve → post = []
      end.
Proof.
  intros H. cases H; explicit_log.
  all: try (split_and!; [done|by eexists|];
            intros pre get post Heq Hsite;
            repeat (destruct pre as [|? pre]; simplify_eq/=); done).
  all: first
    [ exists []; eexists _, _, _; split; [reflexivity|]
    | eexists [_], _, _, _; split; [reflexivity|] ].
  all: split_and!; try done.
  all: repeat constructor; unfold returned_ID; simpl; congruence.
Qed.

(** The same through [CreateUpdate]: when its own calls succeed and the [Get]
    of the closing [Read] echoes the request, the attributes at return are the
    configured ones, with the returned identifier as ID. *)
Lemma CreateUpdate_round_trip (st st1 : State W) (id : LinkedServiceId)
    (resp : LinkedServiceResource) (w : W) :
  (length (key_vault_password (data st)) ≤ key_vault_password_MaxItems)%nat →
  before_Read st = (inl tt, st1) →
  LinkedServiceID (Id (data st1)) = inl id →
  parsed id = configured (data st) →
  client_Get (ResourceGroup id) (FactoryName id) (LinkedServiceName id) ""
    (remote st1) = ((resp, None), w) →
  Name resp = Some (name (data st)) →
  Properties resp = Properties (linkedService (data st)) →
  (CreateUpdate st).1 = inl tt
  ∧ data (CreateUpdate st).2 = SetId (Id (data st1)) (data st).
Proof.
  intros Hmax Hstore Hid Hparsed Hget Hname Hprops.
  rewrite CreateUpdate_run, Hstore, Read_run, Hid, Hget. simpl.
  destruct (store_result _ _ _ Hstore)
    as (l & _ & pre & cu & get & respID & _ & _ & _ & _ & _ & _ & Hdata & _).
  rewrite flatten_linkedService; simpl; rewrite Hdata; done.
Qed.

Lemma Read_log (st : State W) :
  ∃ l, calls (Read st).2 = calls st ++ l ∧ Forall (λ e, site e = AtRead) l.
Proof.
  pose proof (Read_calls st) as HR.
  destruct (LinkedServiceID _) as [id|err].
  - destruct HR as (l & Hl & H). exists l. split; [done|].
    eapply Forall_impl; [exact H|]. by intros e [? _].
  - rewrite HR. exists []. by rewrite app_nil_r.
Qed.

(** C5. A run of [CreateUpdate] that returns [nil] has called
    [CreateOrUpdate], then [Get], then the [Get] of the closing [Read]; the
    identifier the first of the two [Get] returned was stored as the
    resource's ID before [Read] ran, and it is the ID at return unless the
    [Get] of [Read] failed - with a not-found response, as the run returned
    [nil] - in which case the ID at return is empty.  And in any run, a
    successful [Get] after [CreateOrUpdate] that carries no identifier is
    the last call: the run returns an error and the stored state, ID
    included, is what it was. *)
Theorem CreateUpdate_stores_the_returned_ID (st st' : State W) (r : unit + Exit) :
  CreateUpdate st = (r, st') →
  (r = inl tt →
   ∃ pre cu get read respID st1,
     calls st' = calls st ++ pre ++ [cu; get; read]
     ∧ site cu = AtCreateOrUpdate ∧ failure cu = None
     ∧ site get = AtRetrieve ∧ failure get = None
     ∧ returned_ID get = Some respID
     ∧ before_Read st = (inl tt, st1)
     ∧ Id (data st1) = respID
     ∧ site read = AtRead
     ∧ Id (data st') = match failure read with
                       | Some _ => ""
                       | None => respID
                       end
     ∧ (is_Some (failure read) → ResponseWasNotFound (response read) = true))
  ∧ (∀ pre get post,
       calls st' = calls st ++ pre ++ get :: post →
       site get = AtRetrieve → failure get = None → returned_ID get = None →
       post = [] ∧ (∃ msg, r = inr (Return msg)) ∧ data st' = data st).
Proof.
  rewrite CreateUpdate_run.
  destruct (before_Read st) as [r1 st1] eqn:Hstore.
  destruct (store_result _ _ _ Hstore) as (l1 & Hl1 & Hr1).
  destruct r1 as [[]|x].
  - destruct Hr1 as (pre & cu & get & respID & -> & Hcu & Hcu' & Hget & Hget'
                     & HID & Hdata & Hall).
    intros HR. split.
    + intros ->. exists pre, cu, get.
      rewrite Read_run in HR.
      destruct (LinkedServiceID _) as [id|err]; [|done].
      destruct (client_Get _ _ _ _ _) as [[resp [err|]] w] eqn:HG;
        simpl in HR.
      * destruct (ResponseWasNotFound _) eqn:Hnf; [|done].
        injection HR as <-.
        exists (Get_event AtRead (parsed id) (resp, Some err)), respID, st1.
        simpl. rewrite Hl1, Hdata, <- !app_assoc. done.
      * match type of HR with flatten' ?i ?r ?s = _ =>
          destruct (flatten_frame i r s) as (_ & Hc & Hi & _) end.
        rewrite HR in Hc, Hi. simpl in Hc, Hi.
        exists (Get_event AtRead (parsed id) (resp, None)), respID, st1.
        simpl. rewrite Hc, Hi, Hl1, Hdata, <- !app_assoc.
        split_and!; try done. by intros [? [=]].
    + intros pre' get' post Hlog Hsite Hfail Hnil. exfalso.
      destruct (Read_log st1) as (l2 & Hl2 & H2).
      rewrite HR in Hl2. simpl in Hl2.
      rewrite Hl2, Hl1, <- !app_assoc in Hlog. apply app_inv_head in Hlog.
      assert (get' ∈ (pre ++ [cu; get]) ++ l2) as Hin.
      { rewrite <- app_assoc, Hlog. set_solver. }
      apply elem_of_app in Hin as [Hin|Hin].
      * rewrite Forall_forall in Hall. exact (Hall get' Hin Hsite Hnil).
      * rewrite Forall_forall in H2. specialize (H2 get' Hin). congruence.
  - intros [= <- <-]. destruct Hr1 as (Hdata & [msg ->] & Hlast).
    split; [done|].
    intros pre get post Hlog Hsite _ _.
    rewrite Hl1 in Hlog. apply app_inv_head in Hlog.
    split_and!; [by eapply Hlast|by exists msg|done].
Qed.

(** ** Beyond the claims: what each handler calls and writes *)

Lemma Read_methods (st : State W) :
  ∃ l, calls (Read st).2 = calls st ++ l
       ∧ (l = [] ∨ ∃ e, l = [e] ∧ site e = AtRead ∧ method (call e) = MethodGet).
Proof.
  rewrite Read_run.
  destruct (LinkedServiceID _) as [id|err].
  2:{ exists []. split; [by rewrite app_nil_r|by left]. }
  destruct (client_Get _ _ _ _ _) as [[resp [err|]] w] eqn:Hget; simpl.
  - destruct (ResponseWasNotFound _); simpl;
      eexists; (split; [reflexivity|]); right; by eexists.
  - match goal with |- context [flatten' ?i ?r ?s] =>
      destruct (flatten_frame i r s) as (_ & -> & _) end.
    simpl. eexists; (split; [reflexivity|]); right; by eexists.
Qed.

Lemma before_Read_methods (st st1 : State W) (r : unit + Exit) :
  before_Read st = (r, st1) →
  ∃ l, calls st1 = calls st ++ l
       ∧ l ≠ []
       ∧ match r with
         | inl _ =>
             (λ e, method (call e)) <$> l
             = (if IsNewResource (data st) then [MethodGet] else [])
               ++ [MethodCreateOrUpdate; MethodGet]
         | inr _ =>
             (λ e, method (call e)) <$> l
             `prefix_of` (if IsNewResource (data st) then [MethodGet] else [])
                         ++ [MethodCreateOrUpdate; MethodGet]
         end.
Proof.
  intros H. cases H; explicit_log; (split; [done|]); simpl;
    first [ reflexivity | by eexists ].
Qed.

(** X1. The methods a handler calls are, in order, an initial part of the
    operation's protocol - for create and update [Get] (new resources only),
    [CreateOrUpdate], [Get], [Get]; for read one [Get]; for delete one
    [Delete] - and create and update always call at least one.  So an update
    makes no existence check, [Read] and [Delete] make at most one call, no
    run calls [CreateOrUpdate] twice, and only [Delete] deletes. *)
Theorem handlers_follow_the_protocol (op : Operation) (st : State W) :
  ∃ l, calls (handler op st).2 = calls st ++ l
       ∧ (λ e, method (call e)) <$> l `prefix_of` protocol op (data st)
       ∧ match op with
         | OpCreate | OpUpdate => l ≠ []
         | OpRead | OpDelete => True
         end.
Proof.
  assert (∃ l, calls (CreateUpdate st).2 = calls st ++ l
               ∧ (λ e, method (call e)) <$> l `prefix_of` protocol OpCreate (data st)
               ∧ l ≠ []) as HCU.
  { rewrite CreateUpdate_run.
    destruct (before_Read st) as [r st1] eqn:Hs.
    destruct (before_Read_methods _ _ _ Hs) as (l1 & Hl1 & Hne & Hm).
    destruct r as [[]|x].
    2:{ exists l1. split_and!; [done| |done].
        destruct Hm as (k & Hk). exists (k ++ [MethodGet]).
        unfold protocol. rewrite app_assoc, <- Hk, <- app_assoc. done. }
    destruct (Read_methods st1) as (l2 & Hl2 & Hshape).
    exists (l1 ++ l2). split_and!.
    - rewrite Hl2, Hl1. symmetry. apply app_assoc.
    - unfold protocol. rewrite fmap_app, Hm.
      destruct Hshape as [->|(e & -> & _ & He)]; simpl.
      + rewrite app_nil_r. exists [MethodGet]. by rewrite <- app_assoc.
      + rewrite He. exists []. by rewrite app_nil_r, <- app_assoc.
    - by destruct l1. }
  destruct op; simpl.
  - exact HCU.
  - destruct (Read_methods st) as (l & Hl & [->|(e & -> & _ & He)]).
    + exists []. split_and!; [done|by exists [MethodGet]|done].
    + exists [e]. split_and!; [done| |done]. simpl. rewrite He. by exists [].
  - exact HCU.
  - rewrite Delete_run.
    destruct (LinkedServiceID _) as [id|err].
    2:{ exists []. split_and!; [by rewrite app_nil_r|by exists [MethodDelete]|done]. }
    destruct (client_Delete _ _ _ _) as [[resp [err|]] w]; simpl.
    + destruct (ResponseWasNotFound _); simpl;
        eexists; (split_and!; [reflexivity| |done]); by exists [].
    + eexists; (split_and!; [reflexivity| |done]); by exists [].
Qed.

(** X2. [Read] never touches the new-resource mark, and the only thing it
    does to the ID is to clear it: the ID after [Read] is the ID before,
    unless [Read] returned [nil] after a single [Get] that failed with a
    not-found response, and then it is empty. *)
Theorem Read_only_clears_the_ID (st : State W) :
  IsNewResource (data (Read st).2) = IsNewResource (data st)
  ∧ (Id (data (Read st).2) = Id (data st)
     ∨ (Id (data (Read st).2) = ""
        ∧ (Read st).1 = inl tt
        ∧ ∃ e, calls (Read st).2 = calls st ++ [e]
               ∧ is_Some (failure e)
               ∧ ResponseWasNotFound (response e) = true)).
Proof.
  rewrite Read_run.
  destruct (LinkedServiceID _) as [id|err]; [|by split; [|left]].
  destruct (client_Get _ _ _ _ _) as [[resp [err|]] w] eqn:Hget; simpl.
  - destruct (ResponseWasNotFound _) eqn:Hnf; simpl.
    + split; [done|]. right. split_and!; [done..|].
      eexists. split_and!; [reflexivity|by eexists|done].
    + split; [done|by left].
  - match goal with |- context [flatten' ?i ?r ?s] =>
      destruct (flatten_frame i r s) as (_ & _ & Hi & Hn & _) end.
    split; [exact Hn|left; exact Hi].
Qed.

(** X3. [Delete] writes nothing: on every path the attribute set, ID
    included, is after the call what it was before.  It never panics, and it
    returns [nil] exactly when it made its one call and the call succeeded or
    failed with a not-found response. *)
Theorem Delete_writes_nothing (st : State W) :
  data (Delete st).2 = data st
  ∧ (Delete st).1 ≠ inr Panic
  ∧ ((Delete st).1 = inl tt
     ↔ ∃ e, calls (Delete st).2 = calls st ++ [e]
            ∧ (failure e = None ∨ ResponseWasNotFound (response e) = true)).
Proof.
  rewrite Delete_run.
  destruct (LinkedServiceID _) as [id|err].
  2:{ split_and!; [done..|]. split; [done|].
      intros (e & He & _). simpl in He.
      rewrite <- (app_nil_r (calls st)) in He at 1.
      by apply app_inv_head in He. }
  destruct (client_Delete _ _ _ _) as [[resp [err|]] w]; simpl.
  - destruct (ResponseWasNotFound _) eqn:Hnf; simpl.
    + split_and!; [done..|]. split; [|done]. intros _.
      eexists. split; [reflexivity|by right].
    + split_and!; [done..|]. split; [done|].
      intros (e & He & Hok). apply app_inv_head in He. injection He as <-.
      destruct Hok as [Hok|Hok]; unfold failure, response in Hok;
        simpl in Hok; congruence.
  - split_and!; [done..|]. split; [|done]. intros _.
    eexists. split; [reflexivity|by left].
Qed.

(** ** Beyond the claims: what [Read] leaves in the attribute set *)

Lemma contains_itself (s : string) : contains s s.
Proof.
  exists "", "". simpl. induction s as [|c s IH]; [reflexivity|].
  change (String c s = String c (s +:+ "")). by f_equal.
Qed.

Lemma Errorf_contains_rest what n df rg rest s :
  contains s rest → contains s (Errorf' what n df rg rest).
Proof. intros H. unfold Errorf. auto 10 with contains. Qed.

(** X4. When the [Get] of [Read] succeeds with a linked service of another
    kind, [Read] returns an error - naming the linked service, the data
    factory and the resource group, the expected kind and, as received, the
    [Type] of the resource (not the kind of its properties) - after it has
    overwritten [name], [resource_group_name] and [data_factory_name], and
    nothing else. *)
Theorem Read_rejects_another_kind (st : State W) (id : LinkedServiceId)
    (resp : LinkedServiceResource) (w : W) (kind type : string) :
  LinkedServiceID (Id (data st)) = inl id →
  client_Get (ResourceGroup id) (FactoryName id) (LinkedServiceName id) ""
    (remote st) = ((resp, None), w) →
  Properties resp = Some (OtherLinkedService kind) →
  Resource_Type resp = Some type →
  ∃ msg,
    Read st
    = (inr (Return msg),
       MkState (Set_data_factory_name (FactoryName id)
                  (Set_resource_group_name (ResourceGroup id)
                     (Set_name (deref (Name resp)) (data st))))
         w (calls st ++ [Get_event AtRead (parsed id) (resp, None)]))
    ∧ contains (quote (LinkedServiceName id)) msg
    ∧ contains (quote (FactoryName id)) msg
    ∧ contains (quote (ResourceGroup id)) msg
    ∧ contains (quote TypeAzureSQLDatabase) msg
    ∧ contains (quote type) msg.
Proof.
  intros Hid Hget Hprops Htype. rewrite Read_run, Hid, Hget. simpl.
  unfold flatten. run. rewrite Hprops. simpl. rewrite Htype.
  eexists. split; [reflexivity|].
  match goal with |- context [Errorf' ?a ?b ?c ?d ?e] =>
    destruct (Errorf_contains a b c d e) as (Hn & Hdf & Hrg) end.
  split_and!; [exact Hn | exact Hdf | exact Hrg | |];
    apply Errorf_contains_rest.
  - apply contains_later, contains_here.
  - do 3 apply contains_later. apply contains_itself.
Qed.

(** X5. A successful [Read] never clears [tenant_id], [key_vault_password] or
    [integration_runtime_name]: each is overwritten when the response carries
    a value for it (a tenant, a key-vault secret reference as password, a
    runtime reference with a name) and is otherwise what it was before the
    call. *)
Theorem Read_keeps_what_the_response_lacks (st : State W) (id : LinkedServiceId)
    (resp : LinkedServiceResource) (w : W)
    (sql : AzureSQLDatabaseLinkedService)
    (typeProperties : AzureSQLDatabaseLinkedServiceTypeProperties) :
  LinkedServiceID (Id (data st)) = inl id →
  client_Get (ResourceGroup id) (FactoryName id) (LinkedServiceName id) ""
    (remote st) = ((resp, None), w) →
  Properties resp = Some (AzureSQLDatabase sql) →
  TypeProperties sql = Some typeProperties →
  tenant_id (data (Read st).2)
  = match Tenant typeProperties with
    | Some tenant => tenant
    | None => tenant_id (data st)
    end
  ∧ key_vault_password (data (Read st).2)
    = match Password typeProperties with
      | Some (SecretBase_AzureKeyVaultSecretReference keyVaultPassword) =>
          flattenAzureKeyVaultPassword keyVaultPassword
      | _ => key_vault_password (data st)
      end
  ∧ integration_runtime_name (data (Read st).2)
    = match ConnectVia sql with
      | Some {| IntegrationRuntimeReference_ReferenceName := Some referenceName |} =>
          referenceName
      | _ => integration_runtime_name (data st)
      end.
Proof.
  intros Hid Hget Hprops Htp. rewrite Read_run, Hid, Hget. simpl.
  unfold flatten. run. rewrite Hprops. simpl. rewrite Htp.
  repeat (case_match; simplify_eq/=); done.
Qed.

(** X6. A successful [Read] overwrites [name], [resource_group_name],
    [data_factory_name], [description], [additional_properties], [annotations]
    and [parameters] whatever they were: the name is the response's (empty
    when it has none), the resource group and the data factory are those of
    the parsed ID (not the response's), and a response without description
    stores the empty string. *)
Theorem Read_overwrites (st : State W) (id : LinkedServiceId)
    (resp : LinkedServiceResource) (w : W)
    (sql : AzureSQLDatabaseLinkedService)
    (typeProperties : AzureSQLDatabaseLinkedServiceTypeProperties) :
  LinkedServiceID (Id (data st)) = inl id →
  client_Get (ResourceGroup id) (FactoryName id) (LinkedServiceName id) ""
    (remote st) = ((resp, None), w) →
  Properties resp = Some (AzureSQLDatabase sql) →
  TypeProperties sql = Some typeProperties →
  name (data (Read st).2) = default "" (Name resp)
  ∧ resource_group_name (data (Read st).2) = ResourceGroup id
  ∧ data_factory_name (data (Read st).2) = FactoryName id
  ∧ description (data (Read st).2) = default "" (Description sql)
  ∧ additional_properties (data (Read st).2) = AdditionalProperties sql
  ∧ annotations (data (Read st).2)
    = flattenDataFactoryAnnotations (Annotations sql)
  ∧ parameters (data (Read st).2)
    = flattenDataFactoryParameters (Parameters sql).
Proof.
  intros Hid Hget Hprops Htp. rewrite Read_run, Hid, Hget. simpl.
  unfold flatten. run. rewrite Hprops. simpl. rewrite Htp.
  repeat (case_match; simplify_eq/=); done.
Qed.

Lemma flatten_idempotent id resp (st : State W) (w : W) (l : list Event) :
  flatten' id resp (MkState (data (flatten' id resp st).2) w l)
  = ((flatten' id resp st).1, MkState (data (flatten' id resp st).2) w l).
Proof.
  destruct st as [d w0 l0].
  destruct d as [i nw n df rg cs' ds' kvp umi spid' spk' tn' irn ps' an' ap'].
  destruct resp as [rr [[[[[cs pw spid spk tn]|] ap cv ds ps an]|kind]|] rid rn rt].
  - destruct tn, spid, pw as [[?|?|]|], cv as [[? [?|]]|];
      vm_compute; reflexivity.
  - vm_compute; reflexivity.
  - destruct rt; vm_compute; reflexivity.
  - vm_compute; reflexivity.
Qed.

(** X7. Reading twice is reading once: when the service gives the same
    successful answer to two [Get]s in a row, a second [Read] returns what the
    first returned and leaves the attribute set as the first left it. *)
Theorem Read_twice (st : State W) (id : LinkedServiceId)
    (resp : LinkedServiceResource) (w w' : W) :
  LinkedServiceID (Id (data st)) = inl id →
  client_Get (ResourceGroup id) (FactoryName id) (LinkedServiceName id) ""
    (remote st) = ((resp, None), w) →
  client_Get (ResourceGroup id) (FactoryName id) (LinkedServiceName id) ""
    w = ((resp, None), w') →
  (Read (Read st).2).1 = (Read st).1
  ∧ data (Read (Read st).2).2 = data (Read st).2.
Proof.
  intros Hid Hget Hget'.
  assert (Read st = flatten' id resp
            (MkState (data st) w
               (calls st ++ [Get_event AtRead (parsed id) (resp, None)])))
    as H1.
  { by rewrite Read_run, Hid, Hget. }
  rewrite H1.
  match goal with |- context [flatten' ?i ?r ?s] =>
    destruct (flatten_frame i r s) as (Hw & _ & Hi & _);
    set (st1 := (flatten' i r s).2) in * end.
  simpl in Hw, Hi.
  rewrite (Read_run st1), Hi, Hid, Hw, Hget'. simpl.
  unfold st1. rewrite flatten_idempotent. done.
Qed.

(** ** Beyond the claims: what [CreateUpdate] has done when it stops *)

Lemma before_Read_retrieve (st st1 : State W) (r : unit + Exit) :
  before_Read st = (r, st1) →
  ∃ l, calls st1 = calls st ++ l
       ∧ Forall (λ e, site e ≠ AtRead
                      ∧ (site e = AtRetrieve →
                         match r with
                         | inl _ => failure e = None
                                    ∧ returned_ID e = Some (Id (data st1))
                         | inr _ => is_Some (failure e) ∨ returned_ID e = None
                         end)) l.
Proof.
  intros H. cases H; explicit_log.
  all: repeat (first [apply List.Forall_nil | apply List.Forall_cons]).
  all: (split; [done|]); intros Hs; try discriminate Hs.
  all: unfold failure, returned_ID; simpl.
  all: first [ by left; eexists | by right | done ].
Qed.

Lemma Read_ID (st : State W) :
  Id (data (Read st).2) = Id (data st) ∨ (Read st).1 = inl tt.
Proof.
  rewrite Read_run.
  destruct (LinkedServiceID _) as [id|err]; [|by left].
  destruct (client_Get _ _ _ _ _) as [[resp [err|]] w]; simpl.
  - destruct (ResponseWasNotFound _); [by right|by left].
  - match goal with |- context [flatten' ?i ?r ?s] =>
      destruct (flatten_frame i r s) as (_ & _ & Hi & _) end.
    by left.
Qed.

(** X8. The existence check of a new resource lets the run go on when it
    finds nothing: if the [Get] succeeded or failed with a not-found response,
    and the answer carries no ID or the empty string as ID, the next call is
    [CreateOrUpdate] of the configured triple with the request built from the
    configuration. *)
Theorem empty_ID_is_no_existing_resource (st : State W)
    (existing : LinkedServiceResource) (err : option error) (w : W) :
  IsNewResource (data st) = true →
  client_Get (resource_group_name (data st)) (data_factory_name (data st))
    (name (data st)) "" (remote st) = ((existing, err), w) →
  err = None ∨ ResponseWasNotFound (Resource_Response existing) = true →
  ID existing = None ∨ ID existing = Some "" →
  ∃ rest,
    calls (CreateUpdate st).2
    = calls st
      ++ [Get_event AtCheckExisting (configured (data st)) (existing, err);
          CreateOrUpdate_event (configured (data st)) (linkedService (data st))
            (client_CreateOrUpdate (resource_group_name (data st))
               (data_factory_name (data st)) (name (data st))
               (linkedService (data st)) "" w).1]
      ++ rest.
Proof.
  intros Hnew Hget Herr HID.
  rewrite CreateUpdate_run.
  destruct (before_Read st) as [r st1] eqn:H.
  assert (∃ rest1,
            calls st1
            = calls st
              ++ [Get_event AtCheckExisting (configured (data st)) (existing, err);
                  CreateOrUpdate_event (configured (data st))
                    (linkedService (data st))
                    (client_CreateOrUpdate (resource_group_name (data st))
                       (data_factory_name (data st)) (name (data st))
                       (linkedService (data st)) "" w).1]
              ++ rest1) as (rest1 & Hrest1).
  { cases H; try (destruct Herr; congruence); try (destruct HID; congruence).
    all: repeat match goal with
           | Heq : client_CreateOrUpdate _ _ _ _ _ _ = _ |- _ => rewrite Heq
           end.
    all: eexists; rewrite <- ?app_assoc; simpl; reflexivity. }
  destruct r as [[]|x]; [|by exists rest1].
  destruct (Read_log st1) as (l2 & -> & _).
  exists (rest1 ++ l2). rewrite Hrest1, <- !app_assoc. done.
Qed.

(** X9. [CreateUpdate] writes nothing before its re-read has succeeded with
    an identifier: in a run without a successful [Get] after [CreateOrUpdate]
    that carries an ID - stopped by the existence check, by a failed
    [CreateOrUpdate], by a failed re-read or one without ID - the handler
    returns an error and the attribute set, ID included, is what it was. *)
Theorem CreateUpdate_failing_early_writes_nothing (st st' : State W)
    (r : unit + Exit) (l : list Event) :
  CreateUpdate st = (r, st') →
  calls st' = calls st ++ l →
  Forall (λ e, site e = AtRetrieve →
               is_Some (failure e) ∨ returned_ID e = None) l →
  data st' = data st ∧ ∃ msg, r = inr (Return msg).
Proof.
  rewrite CreateUpdate_run.
  destruct (before_Read st) as [r1 st1] eqn:Hs.
  destruct (store_result _ _ _ Hs) as (l1 & Hl1 & Hr1).
  destruct r1 as [[]|x].
  - intros HR Hlog Hall. exfalso.
    destruct Hr1 as (pre & cu & get & respID & -> & _ & _ & Hsite & Hfail
                     & HID & _).
    destruct (Read_log st1) as (l2 & Hl2 & _).
    rewrite HR in Hl2. simpl in Hl2.
    rewrite Hl2, Hl1, <- !app_assoc in Hlog. apply app_inv_head in Hlog.
    subst l. rewrite Forall_forall in Hall.
    assert (get ∈ pre ++ [cu; get] ++ l2) as Hin by set_solver.
    destruct (Hall get Hin Hsite) as [[? Hf]|Hn]; congruence.
  - intros [= <- <-] _ _. destruct Hr1 as (Hdata & [msg ->] & _).
    split; [done|by exists msg].
Qed.

(** X10. Once the re-read has succeeded with an identifier, a failing
    [CreateUpdate] keeps it: when the run ends other than by [return nil]
    after a successful [Get] that followed [CreateOrUpdate] and carried an
    ID - the ID does not parse, the [Get] of [Read] fails, the kind is
    another - that identifier is the resource's ID. *)
Theorem CreateUpdate_failing_late_keeps_the_ID (st st' : State W) (x : Exit)
    (l : list Event) (get : Event) (respID : string) :
  CreateUpdate st = (inr x, st') →
  calls st' = calls st ++ l →
  get ∈ l →
  site get = AtRetrieve → failure get = None → returned_ID get = Some respID →
  Id (data st') = respID.
Proof.
  rewrite CreateUpdate_run.
  destruct (before_Read st) as [r1 st1] eqn:Hs.
  destruct (before_Read_retrieve _ _ _ Hs) as (l1 & Hl1 & H1).
  rewrite Forall_forall in H1.
  destruct r1 as [[]|x1].
  - intros HR Hlog Hin Hsite Hfail HID.
    destruct (Read_log st1) as (l2 & Hl2 & H2).
    rewrite HR in Hl2. simpl in Hl2.
    rewrite Hl2, Hl1, <- !app_assoc in Hlog. apply app_inv_head in Hlog.
    subst l. apply elem_of_app in Hin as [Hin|Hin].
    + destruct (H1 get Hin) as (_ & Hget). destruct (Hget Hsite) as (_ & Hid).
      destruct (Read_ID st1) as [Hkeep|Hnil]; rewrite HR in *; simpl in *.
      * congruence.
      * discriminate Hnil.
    + rewrite Forall_forall in H2. specialize (H2 get Hin). congruence.
  - intros [= <- <-] Hlog Hin Hsite Hfail HID. exfalso.
    rewrite Hl1 in Hlog. apply app_inv_head in Hlog. subst l.
    destruct (H1 get Hin) as (_ & Hget).
    destruct (Hget Hsite) as [[? Hf]|Hn]; congruence.
Qed.

(** X11. After a create or update whose closing [Read] found the resource,
    [Delete] reaches the service - the stored ID parses - with one call, and
    the call addresses the resource group, data factory and linked service
    that the [Get] of [Read] addressed. *)
Theorem Delete_after_CreateUpdate (st st' : State W) (pre : list Event)
    (read : Event) :
  CreateUpdate st = (inl tt, st') →
  calls st' = calls st ++ pre ++ [read] →
  site read = AtRead → failure read = None →
  ∃ e, calls (Delete st').2 = calls st' ++ [e]
       ∧ method (call e) = MethodDelete
       ∧ addressed (call e) = addressed (call read).
Proof.
  rewrite CreateUpdate_run.
  destruct (before_Read st) as [r1 st1] eqn:Hs.
  destruct (before_Read_retrieve _ _ _ Hs) as (l1 & Hl1 & H1).
  destruct r1 as [[]|x1]; [|done].
  intros HR Hlog Hsite Hfail.
  rewrite Read_run in HR.
  destruct (LinkedServiceID (Id (data st1))) as [id|err] eqn:Hid.
  2:{ discriminate HR. }
  destruct (client_Get _ _ _ _ _) as [[resp [err|]] w] eqn:HG; simpl in HR.
  - destruct (ResponseWasNotFound _); [|done].
    injection HR as <-. simpl in Hlog. exfalso.
    rewrite Hl1, <- !app_assoc in Hlog. apply app_inv_head in Hlog.
    apply app_inj_tail in Hlog as [_ <-].
    discriminate Hfail.
  - match type of HR with flatten' ?i ?r ?s = _ =>
      destruct (flatten_frame i r s) as (_ & Hc & Hi & _) end.
    rewrite HR in Hc, Hi. simpl in Hc, Hi.
    rewrite Hc, Hl1, <- !app_assoc in Hlog. apply app_inv_head in Hlog.
    apply app_inj_tail in Hlog as [_ <-].
    rewrite Delete_run, Hi, Hid.
    destruct (client_Delete _ _ _ _) as [[response [err|]] w'']; simpl.
    + destruct (ResponseWasNotFound _); by eexists.
    + by eexists.
Qed.

Lemma flatten_result id resp (st1 st2 : State W) :
  (flatten' id resp st1).1 = (flatten' id resp st2).1.
Proof.
  destruct resp as [rr [[[[[cs pw spid spk tn]|] ap cv ds ps an]|kind]|] rid rn rt].
  - destruct tn, spid, pw as [[?|?|]|], cv as [[? [?|]]|]; reflexivity.
  - reflexivity.
  - destruct rt; reflexivity.
  - reflexivity.
Qed.

(** X12. [Read] and [Delete] consult nothing of the stored state but the ID:
    from two states with the same ID and the same remote service, whatever
    their attributes, each returns the same result and leaves the service in
    the same state. *)
Theorem Read_and_Delete_consult_only_the_ID (st1 st2 : State W) :
  Id (data st1) = Id (data st2) →
  remote st1 = remote st2 →
  (Read st1).1 = (Read st2).1
  ∧ remote (Read st1).2 = remote (Read st2).2
  ∧ (Delete st1).1 = (Delete st2).1
  ∧ remote (Delete st1).2 = remote (Delete st2).2.
Proof.
  intros Hid Hremote.
  rewrite !Read_run, !Delete_run, Hid, Hremote.
  destruct (LinkedServiceID _) as [id|err]; [|done].
  split_and!.
  - destruct (client_Get _ _ _ _ _) as [[resp [err|]] w]; simpl.
    + by destruct (ResponseWasNotFound _).
    + apply flatten_result.
  - destruct (client_Get _ _ _ _ _) as [[resp [err|]] w]; simpl.
    + by destruct (ResponseWasNotFound _).
    + repeat match goal with |- context [flatten' ?i ?r ?s] =>
        lazymatch goal with
        | _ : remote (flatten' i r s).2 = _ |- _ => fail
        | _ => pose proof (proj1 (flatten_frame i r s))
        end end.
      simpl in *. congruence.
  - destruct (client_Delete _ _ _ _) as [[resp [err|]] w]; simpl; [|done].
    by destruct (ResponseWasNotFound _).
  - destruct (client_Delete _ _ _ _) as [[resp [err|]] w]; simpl; [|done].
    by destruct (ResponseWasNotFound _).
Qed.

End Properties.

(** * The properties at work on the scripted service *)

(** The resource is gone: [Read] forgets it, [Delete] has nothing to do. *)
Lemma not_found_is_already_deleted_witness :
  Scripted.Read (Scripted.start Scripted.stored [Scripted.not_found])
  = (inl tt,
     MkState (SetId "" Scripted.stored) []
       [Get_event AtRead ("rg", "df", "ls") Scripted.not_found])
  ∧ Scripted.Delete (Scripted.start Scripted.stored [Scripted.not_found])
    = (inl tt,
       MkState Scripted.stored []
         [Delete_event ("rg", "df", "ls")
            (Scripted.status 404, Some "404 Not Found")]).
Proof.
  destruct (not_found_is_already_deleted Scripted.quote
              Scripted.ResponseWasNotFound Scripted.LinkedServiceID
              (Scripted.start Scripted.stored [Scripted.not_found])
              Scripted.config_id eq_refl)
    as [HR HD].
  split.
  - exact (HR _ _ _ eq_refl eq_refl).
  - exact (HD _ _ _ eq_refl eq_refl).
Defined.

(** The linked service is already there: the new resource is refused. *)
Lemma existing_resource_is_not_overwritten_witness :
  Scripted.CreateUpdate
    (Scripted.start Scripted.config
       [Scripted.found Scripted.config Scripted.config_ID])
  = (inr (Return (Scripted.ImportAsExistsError
                    "azurerm_data_factory_linked_service_azure_sql_database"
                    Scripted.config_ID)),
     MkState Scripted.config []
       [Get_event AtCheckExisting ("rg", "df", "ls")
          (Scripted.found Scripted.config Scripted.config_ID)]).
Proof.
  destruct (existing_resource_is_not_overwritten Scripted.quote
              Scripted.ResponseWasNotFound Scripted.LinkedServiceID
              Scripted.ImportAsExistsError
              (Scripted.start Scripted.config
                 [Scripted.found Scripted.config Scripted.config_ID])
              (Scripted.found Scripted.config Scripted.config_ID).1 None []
              ltac:(reflexivity) ltac:(reflexivity))
    as [_ H].
  destruct (H Scripted.config_ID eq_refl) as [_ H']; [done|].
  apply H'. by left.
Defined.

(** The service answers a [Delete] with a server error: [Delete] returns an
    error naming the linked service, the data factory and the resource
    group. *)
Lemma failures_are_returned_witness :
  ∃ msg,
    (Scripted.Delete (Scripted.start Scripted.stored [Scripted.server_error])).1
    = inr (Return msg)
    ∧ contains (Scripted.quote "ls") msg
    ∧ contains (Scripted.quote "df") msg
    ∧ contains (Scripted.quote "rg") msg.
Proof.
  destruct (failures_are_returned Scripted.quote Scripted.ResponseWasNotFound
              Scripted.LinkedServiceID Scripted.ImportAsExistsError OpDelete
              (Scripted.start Scripted.stored [Scripted.server_error])
              (Scripted.Delete
                 (Scripted.start Scripted.stored [Scripted.server_error])).2
              (Scripted.Delete
                 (Scripted.start Scripted.stored [Scripted.server_error])).1
              [] []
              (Delete_event ("rg", "df", "ls")
                 (Scripted.status 500, Some "500 Internal Server Error")))
    as (_ & msg & Hr & Hn).
  - reflexivity.
  - reflexivity.
  - by eexists.
  - reflexivity.
  - exists msg. split; [exact Hr | exact Hn].
Defined.


(** A response with a service-principal ID switches [use_managed_identity]
    off, whatever it was. *)
Lemma Read_sets_use_managed_identity_witness :
  let d := Set_use_managed_identity true
             (Set_service_principal_id "" Scripted.stored) in
  let st := Scripted.start d [Scripted.found Scripted.config Scripted.config_ID] in
  (Scripted.Read st).1 = inl tt
  ∧ use_managed_identity (data (Scripted.Read st).2) = false
  ∧ service_principal_id (data (Scripted.Read st).2)
    = "00000000-0000-0000-0000-000000000001".
Proof.
  intros d st.
  edestruct (Read_sets_use_managed_identity Scripted.quote
               Scripted.ResponseWasNotFound Scripted.LinkedServiceID st
               Scripted.config_id) as (H1 & H2 & H3);
    [reflexivity | reflexivity | reflexivity | reflexivity |].
  split_and!; [exact H1 | exact H2 | exact H3].
Defined.

(** A creation that goes through: the identifier the service returned is the
    resource's ID. *)
Lemma CreateUpdate_stores_the_returned_ID_witness :
  let st := Scripted.start Scripted.config
              [Scripted.not_found; Scripted.ok;
               Scripted.found Scripted.config Scripted.config_ID;
               Scripted.found Scripted.config Scripted.config_ID] in
  (Scripted.CreateUpdate st).1 = inl tt
  ∧ Id (data (Scripted.CreateUpdate st).2) = Scripted.config_ID.
Proof.
  intros st.
  destruct (CreateUpdate_stores_the_returned_ID (Client:=Scripted.client)
              Scripted.quote
              Scripted.ResponseWasNotFound Scripted.LinkedServiceID
              Scripted.ImportAsExistsError st
              (Scripted.CreateUpdate st).2 (Scripted.CreateUpdate st).1
              ltac:(vm_compute; reflexivity)) as [H _].
  split; [reflexivity|].
  destruct (H eq_refl)
    as (pre & cu & get & read & respID & st1 & _ & _ & _ & _ & _ & _
        & Hstore & HID & _ & Hfinal & _).
  reflexivity.
Defined.

(** The linked service vanishes between the [Get] of [CreateUpdate] and the
    [Get] of its closing [Read]: [CreateUpdate] returns [nil], and the ID is
    empty, not the identifier that was returned. *)
Lemma returned_ID_is_not_always_the_ID :
  ¬ returned_ID_is_the_ID Scripted.CreateUpdate.
Proof.
  intros H.
  pose (st := Scripted.start Scripted.config
                [Scripted.not_found; Scripted.ok;
                 Scripted.found Scripted.config Scripted.config_ID;
                 Scripted.not_found]).
  destruct (H st (Scripted.CreateUpdate st).2 ltac:(vm_compute; reflexivity))
    as (pre & get & post & Hlog & Hsite & HID).
  vm_compute in HID.
  change (calls (Scripted.CreateUpdate st).2)
    with ([] ++ [Get_event AtCheckExisting ("rg", "df", "ls") Scripted.not_found;
                 CreateOrUpdate_event ("rg", "df", "ls")
                   (linkedService Scripted.config) Scripted.ok;
                 Get_event AtRetrieve ("rg", "df", "ls")
                   (Scripted.found Scripted.config Scripted.config_ID);
                 Get_event AtRead ("rg", "df", "ls") Scripted.not_found])
    in Hlog.
  simpl in Hlog.
  repeat (destruct pre as [|? pre]; simplify_eq/=).
Qed.

(** * The further properties at work on the scripted service *)

(** A blob-storage linked service answers under the stored identifier. *)
Lemma Read_rejects_another_kind_witness :
  ∃ msg,
    (Scripted.Read (Scripted.start Scripted.stored [Scripted.other_kind])).1
    = inr (Return msg)
    ∧ contains (Scripted.quote "AzureSqlDatabase") msg
    ∧ contains
        (Scripted.quote "Microsoft.DataFactory/factories/linkedservices") msg.
Proof.
  edestruct (Read_rejects_another_kind (Client:=Scripted.client) Scripted.quote
               Scripted.ResponseWasNotFound Scripted.LinkedServiceID
               (Scripted.start Scripted.stored [Scripted.other_kind])
               Scripted.config_id)
    as (msg & Hrun & _ & _ & _ & Hexpected & Hreceived);
    [reflexivity | reflexivity | reflexivity | reflexivity |].
  exists msg.
  split_and!; [exact (f_equal fst Hrun) | exact Hexpected | exact Hreceived].
Defined.

(** The service has lost tenant, password and runtime: the state keeps
    them. *)
Lemma Read_keeps_what_the_response_lacks_witness :
  let d := data (Scripted.Read
                   (Scripted.start Scripted.stored [Scripted.bare])).2 in
  tenant_id d = "tenant"
  ∧ key_vault_password d
    = [ {| linked_service_name := "kv"; secret_name := "pw" |} ]
  ∧ integration_runtime_name d = "ir".
Proof.
  edestruct (Read_keeps_what_the_response_lacks (Client:=Scripted.client)
               Scripted.quote Scripted.ResponseWasNotFound
               Scripted.LinkedServiceID
               (Scripted.start Scripted.stored [Scripted.bare])
               Scripted.config_id)
    as (H1 & H2 & H3);
    [reflexivity | reflexivity | reflexivity | reflexivity |].
  split_and!; [exact H1 | exact H2 | exact H3].
Defined.

(** The service has lost description, parameters and annotations: the state
    loses them too. *)
Lemma Read_overwrites_witness :
  let d := data (Scripted.Read
                   (Scripted.start Scripted.stored [Scripted.bare])).2 in
  description d = "" ∧ annotations d = [] ∧ parameters d = ∅.
Proof.
  edestruct (Read_overwrites (Client:=Scripted.client)
               Scripted.quote Scripted.ResponseWasNotFound
               Scripted.LinkedServiceID
               (Scripted.start Scripted.stored [Scripted.bare])
               Scripted.config_id)
    as (_ & _ & _ & H4 & _ & H6 & H7);
    [reflexivity | reflexivity | reflexivity | reflexivity |].
  split_and!; [exact H4 | exact H6 | exact H7].
Defined.

(** Two reads of the same bare answer. *)
Lemma Read_twice_witness :
  let st := Scripted.start Scripted.stored [Scripted.bare; Scripted.bare] in
  (Scripted.Read (Scripted.Read st).2).1 = (Scripted.Read st).1
  ∧ data (Scripted.Read (Scripted.Read st).2).2 = data (Scripted.Read st).2.
Proof.
  intros st.
  apply (Read_twice (Client:=Scripted.client) Scripted.quote
           Scripted.ResponseWasNotFound Scripted.LinkedServiceID st
           Scripted.config_id (Scripted.bare).1 [Scripted.bare] []);
    reflexivity.
Defined.

(** Nothing is found: the creation goes on to [CreateOrUpdate]. *)
Lemma empty_ID_is_no_existing_resource_witness :
  ∃ rest,
    calls (Scripted.CreateUpdate
             (Scripted.start Scripted.config [Scripted.not_found; Scripted.ok])).2
    = [Get_event AtCheckExisting ("rg", "df", "ls") Scripted.not_found;
       CreateOrUpdate_event ("rg", "df", "ls") (linkedService Scripted.config)
         Scripted.ok]
      ++ rest.
Proof.
  exact (empty_ID_is_no_existing_resource (Client:=Scripted.client)
           Scripted.quote Scripted.ResponseWasNotFound Scripted.LinkedServiceID
           Scripted.ImportAsExistsError
           (Scripted.start Scripted.config [Scripted.not_found; Scripted.ok])
           (Scripted.not_found).1 (Some "404 Not Found") [Scripted.ok]
           ltac:(reflexivity) ltac:(reflexivity)
           ltac:(right; reflexivity) ltac:(left; reflexivity)).
Defined.

(** [CreateOrUpdate] is refused: nothing is written. *)
Lemma CreateUpdate_failing_early_writes_nothing_witness :
  let run := Scripted.CreateUpdate
               (Scripted.start Scripted.config
                  [Scripted.not_found; Scripted.server_error]) in
  data run.2 = Scripted.config ∧ ∃ msg, run.1 = inr (Return msg).
Proof.
  intros run.
  apply (CreateUpdate_failing_early_writes_nothing (Client:=Scripted.client)
           Scripted.quote Scripted.ResponseWasNotFound Scripted.LinkedServiceID
           Scripted.ImportAsExistsError
           (Scripted.start Scripted.config
              [Scripted.not_found; Scripted.server_error])
           run.2 run.1
           [Get_event AtCheckExisting ("rg", "df", "ls") Scripted.not_found;
            CreateOrUpdate_event ("rg", "df", "ls")
              (linkedService Scripted.config) Scripted.server_error]).
  - vm_compute. reflexivity.
  - vm_compute. reflexivity.
  - repeat (apply List.Forall_cons); [| |apply List.Forall_nil];
      intros Hsite; discriminate Hsite.
Defined.

(** The identifier that came back does not parse: [CreateUpdate] fails, and
    the identifier is the resource's ID. *)
Lemma CreateUpdate_failing_late_keeps_the_ID_witness :
  let run := Scripted.CreateUpdate
               (Scripted.start Scripted.config
                  [Scripted.not_found; Scripted.ok; Scripted.found_elsewhere]) in
  (∃ x, run.1 = inr x) ∧ Id (data run.2) = "/elsewhere".
Proof.
  intros run. split.
  - eexists. vm_compute. reflexivity.
  - eapply (CreateUpdate_failing_late_keeps_the_ID (Client:=Scripted.client)
              Scripted.quote Scripted.ResponseWasNotFound
              Scripted.LinkedServiceID Scripted.ImportAsExistsError
              (Scripted.start Scripted.config
                 [Scripted.not_found; Scripted.ok; Scripted.found_elsewhere])
              run.2 _
              [Get_event AtCheckExisting ("rg", "df", "ls") Scripted.not_found;
               CreateOrUpdate_event ("rg", "df", "ls")
                 (linkedService Scripted.config) Scripted.ok;
               Get_event AtRetrieve ("rg", "df", "ls") Scripted.found_elsewhere]
              (Get_event AtRetrieve ("rg", "df", "ls") Scripted.found_elsewhere)).
    + vm_compute. reflexivity.
    + vm_compute. reflexivity.
    + set_solver.
    + reflexivity.
    + reflexivity.
    + reflexivity.
Defined.

(** Created and read back, then deleted: [Delete] calls the service for the
    linked service that [Read] read. *)
Lemma Delete_after_CreateUpdate_witness :
  let created := (Scripted.CreateUpdate
                    (Scripted.start Scripted.config
                       [Scripted.not_found; Scripted.ok;
                        Scripted.found Scripted.config Scripted.config_ID;
                        Scripted.found Scripted.config Scripted.config_ID])).2 in
  ∃ e, calls (Scripted.Delete created).2 = calls created ++ [e]
       ∧ method (call e) = MethodDelete
       ∧ addressed (call e) = ("rg", "df", "ls").
Proof.
  intros created.
  apply (Delete_after_CreateUpdate (Client:=Scripted.client)
           Scripted.quote Scripted.ResponseWasNotFound Scripted.LinkedServiceID
           Scripted.ImportAsExistsError
           (Scripted.start Scripted.config
              [Scripted.not_found; Scripted.ok;
               Scripted.found Scripted.config Scripted.config_ID;
               Scripted.found Scripted.config Scripted.config_ID])
           created
           [Get_event AtCheckExisting ("rg", "df", "ls") Scripted.not_found;
            CreateOrUpdate_event ("rg", "df", "ls")
              (linkedService Scripted.config) Scripted.ok;
            Get_event AtRetrieve ("rg", "df", "ls")
              (Scripted.found Scripted.config Scripted.config_ID)]
           (Get_event AtRead ("rg", "df", "ls")
              (Scripted.found Scripted.config Scripted.config_ID))).
  - vm_compute. reflexivity.
  - vm_compute. reflexivity.
  - reflexivity.
  - reflexivity.
Defined.

(** The configured state and an empty state with the same ID read alike. *)
Lemma Read_and_Delete_consult_only_the_ID_witness :
  let st1 := Scripted.start Scripted.stored [Scripted.bare] in
  let st2 := Scripted.start (Set_description "other" Scripted.stored)
               [Scripted.bare] in
  (Scripted.Read st1).1 = (Scripted.Read st2).1
  ∧ (Scripted.Delete st1).1 = (Scripted.Delete st2).1.
Proof.
  intros st1 st2.
  destruct (Read_and_Delete_consult_only_the_ID (Client:=Scripted.client)
              Scripted.quote Scripted.ResponseWasNotFound
              Scripted.LinkedServiceID st1 st2 eq_refl eq_refl)
    as (H1 & _ & H3 & _).
  split; [exact H1 | exact H3].
Defined.
